(** * NNModel: a neural network as the generator of a GAN

    Shallow embedding of
    [Generative-Adversarial-Networks/pygan/generativemodel/nn_model.py].

    The class [NNModel] wraps a [pydbm] neural network.  Its own state is a
    handful of private attributes; everything else it does is a call into
    [numpy] or [pydbm].  The embedding therefore has three layers:

    - [Py], [Np]: the fragment of Python and numpy the file relies on
      (exceptions that survive state changes, integer modulo, array shapes
      and [reshape]);
    - [Library]: the interface the adapter expects from the objects it is
      handed (network, noise sampler, default loss / optimizer / verifier),
      kept abstract, together with the log of the calls made through it;
    - [NNModel]: the record of private attributes and the methods, written
      line by line after the source in a state-and-exception monad. *)

From Stdlib Require Import ZArith NArith List String Bool Lia PrimFloat.
Import ListNotations.

Set Warnings "-inexact-float".
Set Implicit Arguments.

Local Open Scope Z_scope.

(** ** Python fragment *)

Module Py.

(** Identity of a Python object that lives outside the adapter. *)
Definition ref := positive.

Inductive exn : Type :=
| TypeError (msg : string)
| IndexError
| ValueError
| ZeroDivisionError
| AttributeError
| LibraryError (msg : string).

(** A method either returns a value or raises. *)
Inductive outcome (A : Type) : Type :=
| Returned (a : A)
| Raised (e : exn).
Arguments Raised {A} e.

Definition returned {A} (o : outcome A) : bool :=
  match o with Returned _ => true | Raised _ => false end.

(** [a % b] on Python integers: floor modulo, [ZeroDivisionError] on a
    zero divisor. *)
Definition mod_ (a b : Z) : exn + Z :=
  if b =? 0 then inl ZeroDivisionError else inr (a mod b).

(** State and exceptions.  A raise keeps every assignment made before
    it, as in Python. *)
Definition M (S A : Type) : Type := S -> outcome A * S.

Definition ret {S A} (a : A) : M S A := fun s => (Returned a, s).

Definition raise {S A} (e : exn) : M S A := fun s => (Raised e, s).

Definition bind {S A B} (m : M S A) (k : A -> M S B) : M S B :=
  fun s =>
    match m s with
    | (Returned a, s') => k a s'
    | (Raised e, s') => (Raised e, s')
    end.

Definition gets {S A} (f : S -> A) : M S A := fun s => (Returned (f s), s).

Definition modify {S} (f : S -> S) : M S unit := fun s => (Returned tt, f s).

(** A pure, fallible computation run inside the monad. *)
Definition lift {S A} (r : exn + A) : M S A :=
  match r with
  | inl e => raise e
  | inr a => ret a
  end.

End Py.

Import Py.

Declare Scope py_scope.
Delimit Scope py_scope with py.
Notation "x <- m ;; k" := (bind m (fun x => k))
  (at level 61, m at next level, right associativity) : py_scope.
Notation "m ;; k" := (bind m (fun _ => k))
  (at level 61, right associativity) : py_scope.
Local Open Scope py_scope.

(** ** numpy fragment *)

Module Np.

(** An array is its shape and its elements in row-major order. *)
Record ndarray : Type := { shape : list N; data : list float }.

Definition ndim (a : ndarray) : nat := List.length (shape a).

Definition size (a : ndarray) : N := fold_right N.mul 1%N (shape a).

(** [a.shape[i]]: indexing the shape tuple. *)
Definition shape_at (a : ndarray) (i : nat) : exn + N :=
  match nth_error (shape a) i with
  | Some d => inr d
  | None => inl IndexError
  end.

(** An entry of the shape passed to [reshape]: a length or [-1]. *)
Inductive dim : Type :=
| Dim (n : N)
| Infer.

Definition known_product (ds : list dim) : N :=
  fold_right (fun d acc => match d with Dim n => n * acc | Infer => acc end)%N
             1%N ds.

Definition unknowns (ds : list dim) : nat :=
  List.length (filter (fun d => match d with Infer => true | Dim _ => false end) ds).

Definition resolve (inferred : N) (d : dim) : N :=
  match d with Dim n => n | Infer => inferred end.

(** [a.reshape(newshape)].  One [-1] is replaced by the length that keeps
    the number of elements; numpy refuses when the known lengths multiply
    to zero or do not divide the size, and when the sizes differ. *)
Definition reshape (a : ndarray) (newshape : list dim) : exn + ndarray :=
  let s_known := known_product newshape in
  match unknowns newshape with
  | O =>
      if (size a =? s_known)%N
      then inr {| shape := map (resolve 0%N) newshape; data := data a |}
      else inl ValueError
  | S O =>
      if (s_known =? 0)%N || negb (size a mod s_known =? 0)%N
      then inl ValueError
      else inr {| shape := map (resolve (size a / s_known)%N) newshape;
                  data := data a |}
  | _ => inl ValueError
  end.

End Np.

Import Np.

(** A Python value, as far as the adapter can be handed one. *)
Inductive pyvalue : Type :=
| PyNone
| PyBool (b : bool)
| PyInt (z : Z)
| PyFloat (f : float)
| PyStr (s : string)
| PyArray (a : ndarray)
| PyObject (r : ref).

(** ** The interface to [pydbm], the noise sampler and [logging] *)

(** Keyword arguments of [NeuralNetwork(...)]. *)
Record NeuralNetworkArgs : Type := {
  kw_nn_layer_list : list ref;
  kw_epochs : Z;
  kw_batch_size : Z;
  kw_learning_rate : float;
  kw_computable_loss : ref;
  kw_opt_params : ref;
  kw_verificatable_result : ref;
  kw_pre_learned_path_list : option (list string);
  kw_learning_attenuate_rate : float;
  kw_attenuate_epoch : Z
}.

(** What the adapter calls.  Methods that compute on arrays, and the
    network constructor, may raise; constructors without arguments and
    attribute accesses on objects of the documented classes do not. *)
Record Library (World : Type) : Type := {
  generate : ref -> World -> (exn + ndarray) * World;
  nn_inference : ref -> ndarray -> World -> (exn + ndarray) * World;
  back_propagation : ref -> ndarray -> World -> (exn + ndarray) * World;
  optimize : ref -> float -> Z -> World -> (exn + unit) * World;
  get_opt_params : ref -> World -> ref;
  set_inferencing_mode : ref -> bool -> World -> World;
  MeanSquaredError : World -> ref * World;
  VerificateFunctionApproximation : World -> ref * World;
  Adam : World -> ref * World;
  set_weight_limit : ref -> float -> World -> World;
  set_dropout_rate : ref -> float -> World -> World;
  NeuralNetwork : NeuralNetworkArgs -> World -> (exn + ref) * World;
  getLogger : string -> World -> ref * World
}.

(** One entry per call made through the interface, with what came back. *)
Inductive event : Type :=
| EvGenerate (sampler : ref) (res : exn + ndarray)
| EvInference (net : ref) (x : ndarray) (res : exn + ndarray)
| EvBackPropagation (net : ref) (g : ndarray) (res : exn + ndarray)
| EvOptimize (net : ref) (rate : float) (epoch : Z) (res : exn + unit)
| EvGetOptParams (net : ref) (res : ref)
| EvSetInferencingMode (opt : ref) (b : bool)
| EvMeanSquaredError (res : ref)
| EvVerificateFunctionApproximation (res : ref)
| EvAdam (res : ref)
| EvSetWeightLimit (opt : ref) (v : float)
| EvSetDropoutRate (opt : ref) (v : float)
| EvNeuralNetwork (args : NeuralNetworkArgs) (res : exn + ref)
| EvGetLogger (name : string) (res : ref).

(** The world outside the adapter and the calls made into it so far. *)
Record Env (World : Type) : Type := {
  world : World;
  calls : list event
}.

(** ** The adapter *)

(** Private attributes of an [NNModel]; [noise_sampler] is the attribute
    inherited from [GenerativeModel], [None] until a sampler is attached. *)
Record NNModel : Type := {
  nn : ref;
  batch_size : Z;
  computable_loss : ref;
  learning_rate : float;
  q_shape : option (list N);
  loss_list : list float;
  epoch_counter : Z;
  learning_attenuate_rate : float;
  attenuate_epoch : Z;
  logger : ref;
  noise_sampler : option ref
}.

(** Arguments of [NNModel.__init__]; [None] is [Datatypes.None]. *)
Record InitArgs : Type := {
  arg_batch_size : Z;
  arg_nn_layer_list : list ref;
  arg_learning_rate : float;
  arg_learning_attenuate_rate : float;
  arg_attenuate_epoch : Z;
  arg_computable_loss : option ref;
  arg_opt_params : option ref;
  arg_verificatable_result : option ref;
  arg_pre_learned_path_list : option (list string);
  arg_nn : option ref
}.

(** Defaults of the signature of [__init__]. *)
Definition default_args (batch_size : Z) (nn_layer_list : list ref) : InitArgs :=
  {| arg_batch_size := batch_size;
     arg_nn_layer_list := nn_layer_list;
     arg_learning_rate := 1e-05%float;
     arg_learning_attenuate_rate := 0.1%float;
     arg_attenuate_epoch := 50;
     arg_computable_loss := None;
     arg_opt_params := None;
     arg_verificatable_result := None;
     arg_pre_learned_path_list := None;
     arg_nn := None |}.

(** An object in its surroundings. *)
Record Obj (World : Type) : Type := {
  self : NNModel;
  env : Env World
}.

Definition set_learning_rate (v : float) (m : NNModel) : NNModel :=
  {| nn := nn m;
     batch_size := batch_size m;
     computable_loss := computable_loss m;
     learning_rate := v;
     q_shape := q_shape m;
     loss_list := loss_list m;
     epoch_counter := epoch_counter m;
     learning_attenuate_rate := learning_attenuate_rate m;
     attenuate_epoch := attenuate_epoch m;
     logger := logger m;
     noise_sampler := noise_sampler m |}.

Definition set_epoch_counter (v : Z) (m : NNModel) : NNModel :=
  {| nn := nn m;
     batch_size := batch_size m;
     computable_loss := computable_loss m;
     learning_rate := learning_rate m;
     q_shape := q_shape m;
     loss_list := loss_list m;
     epoch_counter := v;
     learning_attenuate_rate := learning_attenuate_rate m;
     attenuate_epoch := attenuate_epoch m;
     logger := logger m;
     noise_sampler := noise_sampler m |}.

Definition set_sampler (v : option ref) (m : NNModel) : NNModel :=
  {| nn := nn m;
     batch_size := batch_size m;
     computable_loss := computable_loss m;
     learning_rate := learning_rate m;
     q_shape := q_shape m;
     loss_list := loss_list m;
     epoch_counter := epoch_counter m;
     learning_attenuate_rate := learning_attenuate_rate m;
     attenuate_epoch := attenuate_epoch m;
     logger := logger m;
     noise_sampler := v |}.

Section Adapter.

Context {World : Type} (lib : Library World).

(** *** Calls through the interface, logged *)

Definition fallible {A} (f : World -> (exn + A) * World)
           (ev : exn + A -> event) : M (Env World) A :=
  fun e =>
    let (r, w) := f (world e) in
    let e' := {| world := w; calls := calls e ++ [ev r] |} in
    match r with
    | inl x => (Raised x, e')
    | inr a => (Returned a, e')
    end.

Definition total {A} (f : World -> A * World) (ev : A -> event)
  : M (Env World) A :=
  fun e =>
    let (a, w) := f (world e) in
    (Returned a, {| world := w; calls := calls e ++ [ev a] |}).

Definition call_generate (s : ref) : M (Env World) ndarray :=
  fallible (generate lib s) (EvGenerate s).

Definition call_inference (n : ref) (x : ndarray) : M (Env World) ndarray :=
  fallible (nn_inference lib n x) (EvInference n x).

Definition call_back_propagation (n : ref) (g : ndarray)
  : M (Env World) ndarray :=
  fallible (back_propagation lib n g) (EvBackPropagation n g).

Definition call_optimize (n : ref) (rate : float) (epoch : Z)
  : M (Env World) unit :=
  fallible (optimize lib n rate epoch) (EvOptimize n rate epoch).

Definition read_opt_params (n : ref) : M (Env World) ref :=
  total (fun w => (get_opt_params lib n w, w)) (EvGetOptParams n).

Definition write_inferencing_mode (o : ref) (b : bool) : M (Env World) unit :=
  total (fun w => (tt, set_inferencing_mode lib o b w))
        (fun _ => EvSetInferencingMode o b).

Definition new_MeanSquaredError : M (Env World) ref :=
  total (MeanSquaredError lib) EvMeanSquaredError.

Definition new_VerificateFunctionApproximation : M (Env World) ref :=
  total (VerificateFunctionApproximation lib) EvVerificateFunctionApproximation.

Definition new_Adam : M (Env World) ref :=
  total (Adam lib) EvAdam.

Definition write_weight_limit (o : ref) (v : float) : M (Env World) unit :=
  total (fun w => (tt, set_weight_limit lib o v w))
        (fun _ => EvSetWeightLimit o v).

Definition write_dropout_rate (o : ref) (v : float) : M (Env World) unit :=
  total (fun w => (tt, set_dropout_rate lib o v w))
        (fun _ => EvSetDropoutRate o v).

Definition new_NeuralNetwork (a : NeuralNetworkArgs) : M (Env World) ref :=
  fallible (NeuralNetwork lib a) (EvNeuralNetwork a).

Definition call_getLogger (name : string) : M (Env World) ref :=
  total (getLogger lib name) (EvGetLogger name).

(** A call made from inside a method: [self] is untouched. *)
Definition outside {A} (m : M (Env World) A) : M (Obj World) A :=
  fun o =>
    let (r, e) := m (env o) in
    (r, {| self := self o; env := e |}).

Definition attr {A} (f : NNModel -> A) : M (Obj World) A :=
  gets (fun o => f (self o)).

Definition assign (f : NNModel -> NNModel) : M (Obj World) unit :=
  modify (fun o => {| self := f (self o); env := env o |}).

(** *** [__init__] *)

Definition init (a : InitArgs) : M (Env World) NNModel :=
  computable_loss <-
    match arg_computable_loss a with
    | None => new_MeanSquaredError
    | Some l => ret l
    end ;;
  verificatable_result <-
    match arg_verificatable_result a with
    | None => new_VerificateFunctionApproximation
    | Some v => ret v
    end ;;
  opt_params <-
    match arg_opt_params a with
    | None =>
        opt_params <- new_Adam ;;
        write_weight_limit opt_params 1e+10%float ;;
        write_dropout_rate opt_params 0.0%float ;;
        ret opt_params
    | Some o => ret o
    end ;;
  nn <-
    match arg_nn a with
    | None =>
        new_NeuralNetwork
          {| kw_nn_layer_list := arg_nn_layer_list a;
             kw_epochs := 200;
             kw_batch_size := arg_batch_size a;
             kw_learning_rate := arg_learning_rate a;
             kw_computable_loss := computable_loss;
             kw_opt_params := opt_params;
             kw_verificatable_result := verificatable_result;
             kw_pre_learned_path_list := arg_pre_learned_path_list a;
             kw_learning_attenuate_rate := arg_learning_attenuate_rate a;
             kw_attenuate_epoch := arg_attenuate_epoch a |}
    | Some n => ret n
    end ;;
  logger <- call_getLogger "pygan"%string ;;
  ret {| nn := nn;
         batch_size := arg_batch_size a;
         computable_loss := computable_loss;
         learning_rate := arg_learning_rate a;
         q_shape := None;
         loss_list := [];
         epoch_counter := 0;
         learning_attenuate_rate := arg_learning_attenuate_rate a;
         attenuate_epoch := arg_attenuate_epoch a;
         logger := logger;
         noise_sampler := None |}.

(** *** Methods *)

(** [if arr.ndim != 2: arr = arr.reshape((arr.shape[0], -1))], the first
    statement on the array in both [inference] and [learn]. *)
Definition to_2d (arr : ndarray) : M (Obj World) ndarray :=
  if negb (ndim arr =? 2)%nat then
    d0 <- lift (shape_at arr 0) ;;
    lift (reshape arr [Dim d0; Infer])
  else ret arr.

Definition inference (observed_arr : ndarray) : M (Obj World) ndarray :=
  observed_arr <- to_2d observed_arr ;;
  n <- attr nn ;;
  pred_arr <- outside (call_inference n observed_arr) ;;
  ret pred_arr.

(** [self.noise_sampler.generate()] on [None] is an [AttributeError]. *)
Definition draw : M (Obj World) ndarray :=
  sampler <- attr noise_sampler ;;
  observed_arr <-
    match sampler with
    | None => raise AttributeError
    | Some s => outside (call_generate s)
    end ;;
  arr <- inference observed_arr ;;
  ret arr.

(** [(self.__epoch_counter + 1) % self.__attenuate_epoch == 0] *)
Definition attenuation_due : M (Obj World) bool :=
  c <- attr epoch_counter ;;
  n <- attr attenuate_epoch ;;
  r <- lift (mod_ (c + 1) n) ;;
  ret (r =? 0).

Definition learn (grad_arr : ndarray) : M (Obj World) ndarray :=
  due <- attenuation_due ;;
  (if due then
     r <- attr learning_rate ;;
     a <- attr learning_attenuate_rate ;;
     assign (set_learning_rate (r * a)%float)
   else ret tt) ;;
  grad_arr <- to_2d grad_arr ;;
  n <- attr nn ;;
  delta_arr <- outside (call_back_propagation n grad_arr) ;;
  r <- attr learning_rate ;;
  c <- attr epoch_counter ;;
  outside (call_optimize n r c) ;;
  assign (set_epoch_counter (c + 1)) ;;
  ret delta_arr.

Definition switch_inferencing_mode (inferencing_mode : bool)
  : M (Obj World) unit :=
  n <- attr nn ;;
  o <- outside (read_opt_params n) ;;
  outside (write_inferencing_mode o inferencing_mode).

Definition get_nn : M (Obj World) ref := attr nn.

Definition set_nn (value : pyvalue) : M (Obj World) unit :=
  raise (TypeError "This property must be read-only."%string).

(** Modelled from the spec: the setter of the inherited [noise_sampler]
    property, defined by [GenerativeModel] outside this file; it attaches
    the sampler that [draw] reads. *)
Definition set_noise_sampler (s : ref) : M (Obj World) unit :=
  assign (set_sampler (Some s)).

End Adapter.

Arguments set_nn {World} value _.
Arguments get_nn {World} _.
Arguments set_noise_sampler {World} s _.

(** ** A training driver's view: sequences of operations *)

(** The operations a driver can invoke on an [NNModel]. *)
Inductive op : Type :=
| Draw
| Inference (x : ndarray)
| Learn (g : ndarray)
| SwitchInferencingMode (b : bool)
| GetNn
| SetNn (v : pyvalue)
| SetNoiseSampler (s : ref).

Definition is_learn (o : op) : bool :=
  match o with Learn _ => true | _ => false end.

Section Driver.

Context {World : Type} (lib : Library World).

(** One operation; [true] when it returned, [false] when it raised. *)
Definition step (o : op) (s : Obj World) : bool * Obj World :=
  match o with
  | Draw => let (r, s') := draw lib s in (returned r, s')
  | Inference x => let (r, s') := inference lib x s in (returned r, s')
  | Learn g => let (r, s') := learn lib g s in (returned r, s')
  | SwitchInferencingMode b =>
      let (r, s') := switch_inferencing_mode lib b s in (returned r, s')
  | GetNn => let (r, s') := get_nn s in (returned r, s')
  | SetNn v => let (r, s') := set_nn v s in (returned r, s')
  | SetNoiseSampler n => let (r, s') := set_noise_sampler n s in (returned r, s')
  end.

(** The driver goes on after an operation that raised. *)
Fixpoint run (os : list op) (s : Obj World) : Obj World :=
  match os with
  | [] => s
  | o :: os' => run os' (snd (step o s))
  end.

(** Calls of [learn] that returned along a run. *)
Fixpoint learned (os : list op) (s : Obj World) : nat :=
  match os with
  | [] => O
  | o :: os' =>
      ((if is_learn o && fst (step o s) then 1 else 0)
       + learned os' (snd (step o s)))%nat
  end.

(** Every call of [learn] along a run returned. *)
Fixpoint learns_return (os : list op) (s : Obj World) : bool :=
  match os with
  | [] => true
  | o :: os' =>
      (negb (is_learn o) || fst (step o s))
      && learns_return os' (snd (step o s))
  end.

End Driver.

(** Calls of [learn] in a sequence, returned or not. *)
Definition learn_calls (os : list op) : nat :=
  List.length (filter is_learn os).

(** ** Descriptions used in the statements *)

(** [r0 * a * ... * a] with [k] factors [a], multiplied from the left as
    the successive decays are. *)
Definition attenuated (r0 a : float) (k : nat) : float :=
  Nat.iter k (fun r => (r * a)%float) r0.

(** An array the adapter can bring to two dimensions: it has two already,
    or it has a first dimension and that is not zero. *)
Definition batched (x : ndarray) : bool :=
  (ndim x =? 2)%nat
  || match shape x with
     | d0 :: _ => negb (d0 =? 0)%N
     | [] => false
     end.

(** The array with the same elements, the same first dimension and all
    other dimensions merged into one. *)
Definition flattened (x : ndarray) : ndarray :=
  match shape x with
  | d0 :: _ => {| shape := [d0; (size x / d0)%N]; data := data x |}
  | [] => x
  end.

(** What reaches the network for an input [x]. *)
Definition forwarded (x : ndarray) : ndarray :=
  if (ndim x =? 2)%nat then x else flattened x.

Definition is_NeuralNetwork (ev : event) : bool :=
  match ev with EvNeuralNetwork _ _ => true | _ => false end.

Definition is_Generate (ev : event) : bool :=
  match ev with EvGenerate _ _ => true | _ => false end.

(** The calls made between two moments. *)
Definition added {World : Type} (before after : Env World) : list event :=
  skipn (List.length (calls before)) (calls after).

(** [draw] in the words of its docstring: one sample of noise, passed
    through [inference]. *)
Definition inference_of_noise {World : Type} (lib : Library World) (s : ref)
  : M (Obj World) ndarray :=
  bind (outside (call_generate lib s)) (inference lib).

(** The model after the decay test of [learn], when the test itself
    returned. *)
Definition decay (m : NNModel) : NNModel :=
  if (epoch_counter m + 1) mod attenuate_epoch m =? 0
  then set_learning_rate (learning_rate m * learning_attenuate_rate m)%float m
  else m.

Section Learn.

Context {World : Type} (lib : Library World).

(** The result of [learn] once the decay test and the reshape went
    through: one back-propagation, then one optimize if that returned. *)
Definition learn_result (g : ndarray) (s : Obj World)
  : outcome ndarray * Obj World :=
  let m := decay (self s) in
  let (bp, w1) := back_propagation lib (nn m) (forwarded g) (world (env s)) in
  let log1 := calls (env s) ++ [EvBackPropagation (nn m) (forwarded g) bp] in
  match bp with
  | inl x =>
      (Raised x, {| self := m; env := {| world := w1; calls := log1 |} |})
  | inr delta_arr =>
      let (op, w2) :=
        optimize lib (nn m) (learning_rate m) (epoch_counter m) w1 in
      let log2 :=
        log1 ++ [EvOptimize (nn m) (learning_rate m) (epoch_counter m) op] in
      match op with
      | inl x =>
          (Raised x, {| self := m; env := {| world := w2; calls := log2 |} |})
      | inr _ =>
          (Returned delta_arr,
           {| self := set_epoch_counter (epoch_counter m + 1) m;
              env := {| world := w2; calls := log2 |} |})
      end
  end.

End Learn.

(** ** A small library to run the adapter on

    Networks return the array they are given, the sampler returns a fixed
    batch, objects are numbered as they are created, and the optimizer
    flags and the optimize calls are recorded. *)

Module Sim.

Record World : Type := {
  next : ref;
  opt_of : list (ref * ref);
  mode_of : list (ref * bool);
  optimized : list (float * Z)
}.

Definition empty : World :=
  {| next := 1%positive; opt_of := []; mode_of := []; optimized := [] |}.

Fixpoint lookup {A} (k : ref) (l : list (ref * A)) : option A :=
  match l with
  | [] => None
  | (k', v) :: l' => if Pos.eqb k k' then Some v else lookup k l'
  end.

Definition fresh (w : World) : ref * World :=
  (next w,
   {| next := Pos.succ (next w); opt_of := opt_of w;
      mode_of := mode_of w; optimized := optimized w |}).

Definition noise : ndarray :=
  {| shape := [2%N; 1%N; 2%N];
     data := [0.5%float; 0.25%float; 1%float; 2%float] |}.

Definition echo (x : ndarray) (w : World) : (exn + ndarray) * World :=
  if (ndim x =? 2)%nat then (inr x, w)
  else (inl (LibraryError "expected a matrix"%string), w).

Definition lib : Library World :=
  {| generate := fun _ w => (inr noise, w);
     nn_inference := fun _ => echo;
     back_propagation := fun _ => echo;
     optimize := fun _ rate epoch w =>
       (inr tt,
        {| next := next w; opt_of := opt_of w; mode_of := mode_of w;
           optimized := optimized w ++ [(rate, epoch)] |});
     get_opt_params := fun n w =>
       match lookup n (opt_of w) with Some o => o | None => n end;
     set_inferencing_mode := fun o b w =>
       {| next := next w; opt_of := opt_of w;
          mode_of := (o, b) :: mode_of w; optimized := optimized w |};
     MeanSquaredError := fresh;
     VerificateFunctionApproximation := fresh;
     Adam := fresh;
     set_weight_limit := fun _ _ w => w;
     set_dropout_rate := fun _ _ w => w;
     NeuralNetwork := fun a w =>
       (inr (next w),
        {| next := Pos.succ (next w);
           opt_of := (next w, kw_opt_params a) :: opt_of w;
           mode_of := mode_of w; optimized := optimized w |});
     getLogger := fun _ w => fresh w |}.

Definition start : Env World := {| world := empty; calls := [] |}.

(** [NNModel(batch_size=2, nn_layer_list=[], attenuate_epoch=n)] *)
Definition args (n : Z) : InitArgs :=
  let d := default_args 2 [] in
  {| arg_batch_size := arg_batch_size d;
     arg_nn_layer_list := arg_nn_layer_list d;
     arg_learning_rate := arg_learning_rate d;
     arg_learning_attenuate_rate := arg_learning_attenuate_rate d;
     arg_attenuate_epoch := n;
     arg_computable_loss := arg_computable_loss d;
     arg_opt_params := arg_opt_params d;
     arg_verificatable_result := arg_verificatable_result d;
     arg_pre_learned_path_list := arg_pre_learned_path_list d;
     arg_nn := arg_nn d |}.

(** What [init lib (args n) start] returns: the objects created are
    numbered 1 (loss), 2 (verification), 3 (optimizer), 4 (network) and
    5 (logger). *)
Definition model (n : Z) : NNModel :=
  {| nn := 4%positive;
     batch_size := 2;
     computable_loss := 1%positive;
     learning_rate := 1e-05%float;
     q_shape := None;
     loss_list := [];
     epoch_counter := 0;
     learning_attenuate_rate := 0.1%float;
     attenuate_epoch := n;
     logger := 5%positive;
     noise_sampler := None |}.

Definition after_init (n : Z) : Env World := snd (init lib (args n) start).

Definition object (n : Z) : Obj World :=
  {| self := model n; env := after_init n |}.

(** A 2 x 2 gradient. *)
Definition grad : ndarray :=
  {| shape := [2%N; 2%N];
     data := [1%float; 2%float; 3%float; 4%float] |}.

(** [np.array(1.0)]: an array without dimensions. *)
Definition scalar : ndarray := {| shape := []; data := [1%float] |}.

(** A driver that attaches a sampler, draws, learns (once with a
    gradient that cannot be reshaped), toggles the mode and tries to
    replace the network. *)
Definition session : list op :=
  [SetNoiseSampler 9%positive; Draw; Learn grad; Learn scalar;
   SwitchInferencingMode true; SetNn PyNone; Learn noise; GetNn;
   Inference noise].

(** Three gradient steps that go through, with other calls between. *)
Definition three_steps : list op :=
  [Learn grad; SetNn PyNone; Learn noise; Inference scalar; Learn grad].

(** [np.zeros((0, 2, 2))]: a batch without samples. *)
Definition empty_batch : ndarray := {| shape := [0%N; 2%N; 2%N]; data := [] |}.

(** Three calls of [learn], the second on an array without dimensions. *)
Definition three_calls : list op :=
  [Learn grad; Learn scalar; Learn grad].

End Sim.

(** ** Further descriptions *)

(** The exception of [arr.reshape((arr.shape[0], -1))] on an array that
    cannot be brought to two dimensions: [IndexError] from [shape[0]] when
    there is no dimension, [ValueError] from [reshape] otherwise. *)
Definition unbatched_error (x : ndarray) : exn :=
  match shape x with
  | [] => IndexError
  | _ :: _ => ValueError
  end.

(** The epochs handed to the calls of optimize that returned, in order. *)
Definition optimize_epochs (l : list event) : list Z :=
  flat_map (fun ev =>
              match ev with
              | EvOptimize _ _ c (inr _) => [c]
              | _ => []
              end) l.

Definition is_training (ev : event) : bool :=
  match ev with
  | EvBackPropagation _ _ _ | EvOptimize _ _ _ _ => true
  | _ => false
  end.

Definition is_optimizer_setup (ev : event) : bool :=
  match ev with
  | EvAdam _ | EvSetWeightLimit _ _ | EvSetDropoutRate _ _ => true
  | _ => false
  end.

Definition is_default_loss (ev : event) : bool :=
  match ev with EvMeanSquaredError _ => true | _ => false end.

Definition is_default_verification (ev : event) : bool :=
  match ev with EvVerificateFunctionApproximation _ => true | _ => false end.

Section Waste.

Context {World : Type} (lib : Library World).

(** Calls of [learn] along a run that raised after their decay test had
    fired: the decay stays, the epoch counter does not move. *)
Fixpoint wasted_decays (os : list op) (s : Obj World) : nat :=
  match os with
  | [] => O
  | o :: os' =>
      ((if is_learn o && negb (fst (step lib o s))
           && ((epoch_counter (self s) + 1) mod attenuate_epoch (self s) =? 0)%Z
        then 1 else 0)
       + wasted_decays os' (snd (step lib o s)))%nat
  end.

End Waste.

(** * Properties *)

(** ** Arithmetic of the schedule *)

Lemma div_succ_multiple (c n : Z) :
  0 <= c -> 1 <= n -> (c + 1) mod n = 0 -> (c + 1) / n = c / n + 1.
Proof.
  intros Hc Hn Hm.
  pose proof (Z.div_mod (c + 1) n ltac:(lia)) as E1.
  pose proof (Z.div_mod c n ltac:(lia)) as E2.
  pose proof (Z.mod_pos_bound c n ltac:(lia)) as B.
  rewrite Hm in E1. nia.
Qed.

Lemma div_succ_other (c n : Z) :
  0 <= c -> 1 <= n -> (c + 1) mod n <> 0 -> (c + 1) / n = c / n.
Proof.
  intros Hc Hn Hm.
  pose proof (Z.mod_pos_bound (c + 1) n ltac:(lia)) as B.
  pose proof (Z.div_mod (c + 1) n ltac:(lia)) as E1.
  apply Z.div_unique with (r := (c + 1) mod n - 1); lia.
Qed.

(** ** numpy: bringing an array to two dimensions *)

Lemma reshape_rows (x : ndarray) (d0 : N) (rest : list N) :
  shape x = d0 :: rest -> d0 <> 0%N ->
  reshape x [Dim d0; Infer] = inr (flattened x).
Proof.
  intros Hs Hd. unfold reshape, flattened. rewrite Hs. cbn.
  rewrite N.mul_1_r.
  assert (Hsz : size x = (fold_right N.mul 1 rest * d0)%N).
  { unfold size. rewrite Hs. cbn. apply N.mul_comm. }
  rewrite Hsz, N.Div0.mod_mul.
  destruct (N.eqb_spec d0 0) as [E | _]; [contradiction | ].
  reflexivity.
Qed.

Lemma reshape_empty_batch (x : ndarray) (rest : list N) :
  shape x = 0%N :: rest -> reshape x [Dim 0%N; Infer] = inl ValueError.
Proof. intros Hs. reflexivity. Qed.

Section Frames.

Context {World : Type} (lib : Library World).

Lemma to_2d_batched (x : ndarray) (s : Obj World) :
  batched x = true -> to_2d x s = (Returned (forwarded x), s).
Proof.
  unfold batched, to_2d, forwarded. intros H.
  destruct (ndim x =? 2)%nat; [reflexivity | ].
  cbn [orb negb] in H |- *.
  destruct (shape x) as [ | d0 rest] eqn:Hs; [discriminate | ].
  destruct (N.eqb_spec d0 0) as [E | E]; [discriminate | ].
  unfold bind, lift, shape_at. rewrite Hs. cbn [nth_error ret].
  rewrite (reshape_rows x Hs E). reflexivity.
Qed.

Lemma to_2d_other (x : ndarray) (s : Obj World) :
  batched x = false -> exists e, to_2d x s = (Raised e, s).
Proof.
  unfold batched, to_2d. intros H.
  destruct (ndim x =? 2)%nat; [discriminate | ].
  cbn [orb negb] in H |- *.
  destruct (shape x) as [ | d0 rest] eqn:Hs.
  - exists IndexError. unfold bind, lift, shape_at. rewrite Hs. reflexivity.
  - destruct (N.eqb_spec d0 0) as [E | E]; [ | discriminate ].
    subst d0. exists ValueError.
    unfold bind, lift, shape_at. rewrite Hs. cbn [nth_error ret].
    rewrite (reshape_empty_batch x Hs). reflexivity.
Qed.

Lemma to_2d_frame (x : ndarray) (s : Obj World) : snd (to_2d x s) = s.
Proof.
  destruct (batched x) eqn:B.
  - rewrite (to_2d_batched x s B). reflexivity.
  - destruct (to_2d_other x s B) as [e ->]. reflexivity.
Qed.

Lemma attenuation_due_zero (s : Obj World) :
  attenuate_epoch (self s) = 0 ->
  attenuation_due s = (Raised ZeroDivisionError, s).
Proof.
  intros H. unfold attenuation_due, bind, attr, gets, lift, mod_.
  rewrite H. reflexivity.
Qed.

Lemma attenuation_due_nonzero (s : Obj World) :
  attenuate_epoch (self s) <> 0 ->
  attenuation_due s =
    (Returned ((epoch_counter (self s) + 1) mod attenuate_epoch (self s) =? 0),
     s).
Proof.
  intros H. unfold attenuation_due, bind, attr, gets, lift, mod_.
  destruct (Z.eqb_spec (attenuate_epoch (self s)) 0); [contradiction | ].
  reflexivity.
Qed.

(** *** What [learn] does, step by step *)

Lemma decay_fields (m : NNModel) :
  nn (decay m) = nn m /\
  epoch_counter (decay m) = epoch_counter m /\
  attenuate_epoch (decay m) = attenuate_epoch m /\
  learning_attenuate_rate (decay m) = learning_attenuate_rate m /\
  loss_list (decay m) = loss_list m /\
  noise_sampler (decay m) = noise_sampler m.
Proof. unfold decay. destruct (_ =? 0); repeat split. Qed.

Lemma learn_zero (g : ndarray) (s : Obj World) :
  attenuate_epoch (self s) = 0 ->
  learn lib g s = (Raised ZeroDivisionError, s).
Proof.
  intros H. unfold learn, bind at 1.
  rewrite (attenuation_due_zero s H). reflexivity.
Qed.

Lemma learn_decays (g : ndarray) (s : Obj World) :
  attenuate_epoch (self s) <> 0 ->
  learn lib g s =
    (grad_arr <- to_2d g ;;
     n <- attr nn ;;
     delta_arr <- outside (call_back_propagation lib n grad_arr) ;;
     r <- attr learning_rate ;;
     c <- attr epoch_counter ;;
     outside (call_optimize lib n r c) ;;
     assign (set_epoch_counter (c + 1)) ;;
     ret delta_arr) {| self := decay (self s); env := env s |}.
Proof.
  intros H. unfold learn, bind at 1.
  rewrite (attenuation_due_nonzero s H). unfold decay.
  destruct s as [m e]. cbn [self env].
  destruct ((epoch_counter m + 1) mod attenuate_epoch m =? 0); reflexivity.
Qed.

Lemma learn_batched (g : ndarray) (s : Obj World) :
  attenuate_epoch (self s) <> 0 -> batched g = true ->
  learn lib g s = learn_result lib g s.
Proof.
  intros HN Hg. rewrite (learn_decays g s HN).
  unfold bind at 1. rewrite (to_2d_batched _ _ Hg).
  unfold learn_result, bind, attr, gets, outside, assign, modify, ret,
    call_back_propagation, call_optimize, fallible.
  cbn [self env world calls].
  destruct (back_propagation lib _ _ _) as [[x | d] w1]; cbn [self env world calls];
    [reflexivity | ].
  destruct (decay_fields (self s)) as (_ & Hc & _).
  destruct (optimize lib _ _ _ _) as [[x | u] w2]; cbn [self env world calls];
    reflexivity.
Qed.

Lemma learn_unbatched (g : ndarray) (s : Obj World) :
  attenuate_epoch (self s) <> 0 -> batched g = false ->
  exists e,
    learn lib g s = (Raised e, {| self := decay (self s); env := env s |}).
Proof.
  intros HN Hg. rewrite (learn_decays g s HN).
  unfold bind at 1.
  destruct (to_2d_other g {| self := decay (self s); env := env s |} Hg)
    as [e ->].
  exists e. reflexivity.
Qed.

(** *** What each method leaves of [self] *)

Lemma learn_self (g : ndarray) (s : Obj World) :
  attenuate_epoch (self s) <> 0 ->
  self (snd (learn lib g s)) =
    if returned (fst (learn lib g s))
    then set_epoch_counter (epoch_counter (self s) + 1) (decay (self s))
    else decay (self s).
Proof.
  intros HN. destruct (batched g) eqn:Hg.
  - rewrite (learn_batched g s HN Hg). unfold learn_result.
    destruct (decay_fields (self s)) as (_ & Hc & _).
    destruct (back_propagation lib _ _ _) as [[x | d] w1]; [reflexivity | ].
    destruct (optimize lib _ _ _ _) as [[x | u] w2]; cbn; [reflexivity | ].
    rewrite Hc. reflexivity.
  - destruct (learn_unbatched g s HN Hg) as [e ->]. reflexivity.
Qed.

Lemma inference_self (x : ndarray) (s : Obj World) :
  self (snd (inference lib x s)) = self s.
Proof.
  unfold inference, bind at 1.
  pose proof (to_2d_frame x s) as F.
  destruct (to_2d x s) as [[x2 | e] s']; cbn in F; subst s'; [ | reflexivity].
  unfold bind, attr, gets, outside, call_inference, fallible, ret.
  cbn [self env].
  destruct (nn_inference lib _ _ _) as [[e | y] w]; reflexivity.
Qed.

Lemma draw_self (s : Obj World) : self (snd (draw lib s)) = self s.
Proof.
  unfold draw, bind at 1, attr, gets.
  destruct (noise_sampler (self s)) as [n | ]; [ | reflexivity].
  unfold bind at 1, outside, call_generate, fallible.
  destruct (generate lib _ _) as [[e | y] w]; cbn [self env]; [reflexivity | ].
  unfold bind.
  pose proof (inference_self y
    {| self := self s;
       env := {| world := w;
                 calls := calls (env s) ++ [EvGenerate n (inr y)] |} |}) as F.
  destruct (inference lib y _) as [[z | e] s']; exact F.
Qed.

(** The model after one operation of the driver. *)
Lemma step_self (o : op) (s : Obj World) :
  attenuate_epoch (self s) <> 0 ->
  self (snd (step lib o s)) =
    match o with
    | Learn _ =>
        if fst (step lib o s)
        then set_epoch_counter (epoch_counter (self s) + 1) (decay (self s))
        else decay (self s)
    | SetNoiseSampler n => set_sampler (Some n) (self s)
    | _ => self s
    end.
Proof.
  intros HN. destruct o as [ | x | g | b | | v | n]; cbn [step].
  - pose proof (draw_self s) as F.
    destruct (draw lib s); exact F.
  - pose proof (inference_self x s) as F.
    destruct (inference lib x s); exact F.
  - pose proof (learn_self g s HN) as F.
    destruct (learn lib g s); exact F.
  - reflexivity.
  - reflexivity.
  - reflexivity.
  - reflexivity.
Qed.

Lemma step_self_zero (o : op) (s : Obj World) :
  attenuate_epoch (self s) = 0 ->
  fst (step lib o s) && is_learn o = false /\
  self (snd (step lib o s)) =
    match o with
    | SetNoiseSampler n => set_sampler (Some n) (self s)
    | _ => self s
    end.
Proof.
  intros HN. destruct o as [ | x | g | b | | v | n]; cbn [step is_learn];
    rewrite ?andb_false_r; try (split; reflexivity).
  - split; [reflexivity | ].
    pose proof (draw_self s) as F. destruct (draw lib s); exact F.
  - split; [reflexivity | ].
    pose proof (inference_self x s) as F.
    destruct (inference lib x s); exact F.
  - rewrite (learn_zero g s HN). split; reflexivity.
Qed.

End Frames.

(** ** The log of calls *)

Lemma skipn_length_app {A} (l l' : list A) :
  skipn (List.length l) (l ++ l') = l'.
Proof. induction l as [ | x l IH]; [reflexivity | exact IH]. Qed.

Lemma added_app {World : Type} (e e' : Env World) (l : list event) :
  calls e' = calls e ++ l -> added e e' = l.
Proof. unfold added. intros ->. apply skipn_length_app. Qed.

(** Case analysis on the innermost scrutinee of the goal. *)
Ltac break_match :=
  match goal with
  | |- context [match ?c with _ => _ end] =>
      lazymatch c with
      | context [match _ with _ => _ end] => fail
      | _ => destruct c
      end
  end.

Ltac run_py :=
  unfold attr, assign, outside, fallible, total, lift;
  unfold bind, ret, raise, gets, modify;
  cbn [self env world calls fst snd].

(** ** Behaviour of the class *)

Section Behaviour.

Context {World : Type} (lib : Library World).

(** *** The constructor *)

Lemma init_fields (a : InitArgs) (e e' : Env World) (m : NNModel) :
  init lib a e = (Returned m, e') ->
  batch_size m = arg_batch_size a /\
  learning_rate m = arg_learning_rate a /\
  learning_attenuate_rate m = arg_learning_attenuate_rate a /\
  attenuate_epoch m = arg_attenuate_epoch a /\
  epoch_counter m = 0 /\
  loss_list m = [] /\
  q_shape m = None /\
  noise_sampler m = None.
Proof.
  unfold init, new_MeanSquaredError, new_VerificateFunctionApproximation,
    new_Adam, write_weight_limit, write_dropout_rate, new_NeuralNetwork,
    call_getLogger.
  run_py.
  destruct (arg_computable_loss a); destruct (arg_verificatable_result a);
    destruct (arg_opt_params a); destruct (arg_nn a);
    repeat (cbn [world calls]; break_match);
    cbn [world calls];
    intros H; inversion H; subst; repeat split.
Qed.

(** C1. Assigning to the [nn] property, whatever the value, raises
    [TypeError]; the wrapped network, the learning rate, the epoch
    counter, the loss history and everything else stay as they were. *)
Theorem set_nn_raises (v : pyvalue) (s : Obj World) :
  set_nn v s = (Raised (TypeError "This property must be read-only."), s) /\
  nn (self (snd (set_nn v s))) = nn (self s) /\
  learning_rate (self (snd (set_nn v s))) = learning_rate (self s) /\
  epoch_counter (self (snd (set_nn v s))) = epoch_counter (self s) /\
  loss_list (self (snd (set_nn v s))) = loss_list (self s).
Proof. repeat split. Qed.

(** C7. [switch_inferencing_mode b] reads the network's [opt_params],
    sets its [inferencing_mode] to [b], makes no other call and returns;
    the wrapped network, the learning rate, the epoch counter and the
    loss history are unchanged. *)
Theorem switch_inferencing_mode_frame (b : bool) (s : Obj World) :
  let o := get_opt_params lib (nn (self s)) (world (env s)) in
  switch_inferencing_mode lib b s =
    (Returned tt,
     {| self := self s;
        env := {| world := set_inferencing_mode lib o b (world (env s));
                  calls := calls (env s)
                           ++ [EvGetOptParams (nn (self s)) o;
                               EvSetInferencingMode o b] |} |}) /\
  nn (self (snd (switch_inferencing_mode lib b s))) = nn (self s) /\
  learning_rate (self (snd (switch_inferencing_mode lib b s)))
    = learning_rate (self s) /\
  epoch_counter (self (snd (switch_inferencing_mode lib b s)))
    = epoch_counter (self s) /\
  loss_list (self (snd (switch_inferencing_mode lib b s)))
    = loss_list (self s).
Proof.
  cbv zeta. split; [ | repeat split].
  unfold switch_inferencing_mode, read_opt_params, write_inferencing_mode.
  run_py. rewrite <- app_assoc. reflexivity.
Qed.

(** *** Along a run of the driver *)

Lemma step_keeps (o : op) (s : Obj World) :
  nn (self (snd (step lib o s))) = nn (self s) /\
  attenuate_epoch (self (snd (step lib o s))) = attenuate_epoch (self s) /\
  learning_attenuate_rate (self (snd (step lib o s)))
    = learning_attenuate_rate (self s) /\
  loss_list (self (snd (step lib o s))) = loss_list (self s).
Proof.
  destruct (Z.eq_dec (attenuate_epoch (self s)) 0) as [HZ | HN].
  - destruct (step_self_zero lib o s HZ) as [_ ->].
    destruct o; repeat split.
  - rewrite (step_self lib o s HN).
    destruct (decay_fields (self s)) as (Hn & _ & Ha & Hr & Hl & _).
    destruct o; try destruct (fst _); cbn; repeat split; assumption.
Qed.

Lemma step_counter (o : op) (s : Obj World) :
  epoch_counter (self (snd (step lib o s))) =
    epoch_counter (self s) + (if is_learn o && fst (step lib o s) then 1 else 0).
Proof.
  destruct (Z.eq_dec (attenuate_epoch (self s)) 0) as [HZ | HN].
  - destruct (step_self_zero lib o s HZ) as [Hf ->].
    rewrite andb_comm, Hf. destruct o; cbn; lia.
  - rewrite (step_self lib o s HN).
    destruct (decay_fields (self s)) as (_ & Hc & _).
    destruct o; cbn [is_learn andb]; try (cbn; lia).
    destruct (fst _); cbn; lia.
Qed.

Lemma run_keeps (os : list op) (s : Obj World) :
  nn (self (run lib os s)) = nn (self s) /\
  attenuate_epoch (self (run lib os s)) = attenuate_epoch (self s) /\
  learning_attenuate_rate (self (run lib os s))
    = learning_attenuate_rate (self s) /\
  loss_list (self (run lib os s)) = loss_list (self s).
Proof.
  revert s. induction os as [ | o os IH]; intros s; cbn [run].
  - repeat split.
  - destruct (IH (snd (step lib o s))) as (-> & -> & -> & ->).
    apply step_keeps.
Qed.

Lemma run_counter (os : list op) (s : Obj World) :
  epoch_counter (self (run lib os s)) =
    epoch_counter (self s) + Z.of_nat (learned lib os s).
Proof.
  revert s. induction os as [ | o os IH]; intros s; cbn [run learned].
  - lia.
  - rewrite IH, step_counter.
    destruct (is_learn o && fst (step lib o s)); lia.
Qed.

(** C8. The loss history is empty after construction, no operation of
    the class changes it, and so it is empty in every state a driver can
    reach. *)
Theorem loss_list_stays_empty
  (a : InitArgs) (e e' : Env World) (m : NNModel) (os : list op) :
  init lib a e = (Returned m, e') ->
  loss_list m = [] /\
  (forall o s, loss_list (self (snd (step lib o s))) = loss_list (self s)) /\
  loss_list (self (run lib os {| self := m; env := e' |})) = [].
Proof.
  intros Hinit.
  destruct (init_fields a e Hinit) as (_ & _ & _ & _ & _ & Hl & _).
  split; [exact Hl | split].
  - intros o s. apply step_keeps.
  - destruct (run_keeps os {| self := m; env := e' |}) as (_ & _ & _ & ->).
    exact Hl.
Qed.

(** C9. The epoch counter is 0 after construction; a call of [learn]
    that returns adds exactly 1; a call of [learn] that raises and every
    other operation leave it alone; so it equals the number of calls of
    [learn] that returned. *)
Theorem epoch_counter_counts_learns
  (a : InitArgs) (e e' : Env World) (m : NNModel) (os : list op) :
  init lib a e = (Returned m, e') ->
  epoch_counter m = 0 /\
  (forall o s,
      epoch_counter (self (snd (step lib o s))) =
        epoch_counter (self s)
        + (if is_learn o && fst (step lib o s) then 1 else 0)) /\
  epoch_counter (self (run lib os {| self := m; env := e' |}))
    = Z.of_nat (learned lib os {| self := m; env := e' |}).
Proof.
  intros Hinit.
  destruct (init_fields a e Hinit) as (_ & _ & _ & _ & Hc & _).
  split; [exact Hc | split].
  - apply step_counter.
  - rewrite run_counter. cbn [self]. rewrite Hc. reflexivity.
Qed.

(** C10. Built with [attenuate_epoch = 0], the object fails every call
    of [learn] with [ZeroDivisionError], before anything is changed or
    called; built with [attenuate_epoch >= 1], the decay test of [learn]
    always returns, with the value of [(epoch_counter + 1) %
    attenuate_epoch == 0]. *)
Theorem attenuate_epoch_zero_or_positive
  (a : InitArgs) (e e' : Env World) (m : NNModel) (os : list op)
  (g : ndarray) :
  init lib a e = (Returned m, e') ->
  let s := run lib os {| self := m; env := e' |} in
  (arg_attenuate_epoch a = 0 ->
   learn lib g s = (Raised ZeroDivisionError, s)) /\
  (1 <= arg_attenuate_epoch a ->
   attenuation_due s =
     (Returned ((epoch_counter (self s) + 1) mod arg_attenuate_epoch a =? 0),
      s) /\
   fst (attenuation_due s) <> Raised ZeroDivisionError).
Proof.
  intros Hinit s.
  destruct (init_fields a e Hinit) as (_ & _ & _ & Ha & _).
  assert (HN : attenuate_epoch (self s) = arg_attenuate_epoch a).
  { subst s.
    destruct (run_keeps os {| self := m; env := e' |}) as (_ & -> & _).
    exact Ha. }
  split.
  - intros H0. apply learn_zero. lia.
  - intros H1.
    rewrite (attenuation_due_nonzero s ltac:(lia)), HN.
    split; [reflexivity | discriminate].
Qed.

(** *** The decay schedule *)

Lemma decay_rate (m : NNModel) :
  learning_rate (decay m) =
    if (epoch_counter m + 1) mod attenuate_epoch m =? 0
    then (learning_rate m * learning_attenuate_rate m)%float
    else learning_rate m.
Proof. unfold decay. destruct (_ =? 0); reflexivity. Qed.

Lemma learn_rate (g : ndarray) (s : Obj World) :
  attenuate_epoch (self s) <> 0 ->
  learning_rate (self (snd (learn lib g s))) = learning_rate (decay (self s)).
Proof.
  intros HN. rewrite (learn_self lib g s HN).
  destruct (returned _); reflexivity.
Qed.

Lemma attenuated_next (r0 a : float) (k : nat) (n : Z) :
  1 <= n ->
  (if (Z.of_nat k + 1) mod n =? 0
   then (attenuated r0 a (Z.to_nat (Z.of_nat k / n)) * a)%float
   else attenuated r0 a (Z.to_nat (Z.of_nat k / n)))
  = attenuated r0 a (Z.to_nat (Z.of_nat (S k) / n)).
Proof.
  intros Hn. rewrite Nat2Z.inj_succ, <- Z.add_1_r.
  assert (Hq : 0 <= Z.of_nat k / n) by (apply Z.div_pos; lia).
  destruct (Z.eqb_spec ((Z.of_nat k + 1) mod n) 0) as [E | E].
  - rewrite div_succ_multiple by lia.
    rewrite Z.add_1_r, Z2Nat.inj_succ by exact Hq.
    reflexivity.
  - rewrite div_succ_other by lia.
    reflexivity.
Qed.

Lemma run_schedule (r0 a : float) (n : Z) (os : list op) :
  1 <= n ->
  forall (s : Obj World) (k : nat),
    attenuate_epoch (self s) = n ->
    learning_attenuate_rate (self s) = a ->
    epoch_counter (self s) = Z.of_nat k ->
    learning_rate (self s) = attenuated r0 a (Z.to_nat (Z.of_nat k / n)) ->
    learns_return lib os s = true ->
    learning_rate (self (run lib os s)) =
      attenuated r0 a (Z.to_nat (Z.of_nat (k + learn_calls os) / n)).
Proof.
  intros Hn. induction os as [ | o os IH]; intros s k HN Ha Hc Hr Hret.
  - cbn [run]. unfold learn_calls. cbn. rewrite Nat.add_0_r. exact Hr.
  - cbn [run]. cbn [learns_return] in Hret.
    apply andb_true_iff in Hret. destruct Hret as [Ho Hos].
    destruct (step_keeps o s) as (_ & HN' & Ha' & _).
    pose proof (step_self lib o s ltac:(lia)) as Hs.
    destruct (decay_fields (self s)) as (_ & Hdc & _).
    destruct (is_learn o) eqn:Hl.
    + (* a call of [learn], which returned *)
      cbn [negb orb] in Ho.
      destruct o; try discriminate Hl. rewrite Ho in Hs.
      replace (k + learn_calls (Learn g :: os))%nat
        with (S k + learn_calls os)%nat by (unfold learn_calls; cbn; lia).
      apply IH; try congruence.
      * rewrite Hs. cbn [set_epoch_counter epoch_counter]. lia.
      * rewrite Hs. cbn [set_epoch_counter learning_rate].
        rewrite decay_rate, HN, Ha, Hc, Hr.
        apply attenuated_next. exact Hn.
    + (* any other operation *)
      replace (k + learn_calls (o :: os))%nat
        with (k + learn_calls os)%nat
        by (unfold learn_calls; cbn [filter]; rewrite Hl; reflexivity).
      apply IH; try congruence.
      * rewrite Hs. destruct o; try discriminate Hl; exact Hc.
      * rewrite Hs. destruct o; try discriminate Hl; exact Hr.
Qed.

(** C2, as the code has it.  With [attenuate_epoch = N >= 1], a call of
    [learn] multiplies the stored learning rate by the attenuation
    factor exactly when the epoch counter [c] before the call satisfies
    [(c + 1) mod N = 0]; and after [n] calls of [learn] that all
    returned, whatever else was called in between, the stored rate is the
    initial one multiplied [floor (n / N)] times by the factor. *)
Theorem learning_rate_schedule
  (a : InitArgs) (e e' : Env World) (m : NNModel) (os : list op) :
  init lib a e = (Returned m, e') ->
  1 <= arg_attenuate_epoch a ->
  (forall g s,
      attenuate_epoch (self s) = arg_attenuate_epoch a ->
      learning_rate (self (snd (learn lib g s))) =
        if (epoch_counter (self s) + 1) mod arg_attenuate_epoch a =? 0
        then (learning_rate (self s) * learning_attenuate_rate (self s))%float
        else learning_rate (self s)) /\
  (learns_return lib os {| self := m; env := e' |} = true ->
   learning_rate (self (run lib os {| self := m; env := e' |})) =
     attenuated (arg_learning_rate a) (arg_learning_attenuate_rate a)
       (Z.to_nat (Z.of_nat (learn_calls os) / arg_attenuate_epoch a))).
Proof.
  intros Hinit Hn.
  destruct (init_fields a e Hinit) as (_ & Hr & Ha & HN & Hc & _).
  split.
  - intros g s Hs.
    rewrite (learn_rate g s ltac:(lia)), decay_rate, Hs. reflexivity.
  - intros Hret.
    change (learn_calls os) with (0 + learn_calls os)%nat.
    apply run_schedule; cbn [self]; assumption.
Qed.

(** *** One gradient step *)

(** C3, as the code has it.  When [attenuate_epoch] is not zero and the
    gradient has two dimensions or a first dimension that is not zero,
    [learn] calls back-propagation once, on the gradient brought to two
    dimensions.  If that call returns, [learn] calls optimize once, with
    the learning rate after the decay test and the epoch counter before
    its increment; if that returns as well, [learn] returns the delta
    array of the back-propagation and the counter has advanced by one.
    No other call is made. *)
Theorem learn_back_propagates_then_optimizes (g : ndarray) (s : Obj World) :
  attenuate_epoch (self s) <> 0 ->
  batched g = true ->
  let net := nn (self s) in
  let rate := learning_rate (decay (self s)) in
  let c := epoch_counter (self s) in
  let bp := back_propagation lib net (forwarded g) (world (env s)) in
  let after := snd (learn lib g s) in
  match fst bp with
  | inl x =>
      fst (learn lib g s) = Raised x /\
      added (env s) (env after)
        = [EvBackPropagation net (forwarded g) (inl x)]
  | inr delta_arr =>
      let op := optimize lib net rate c (snd bp) in
      added (env s) (env after)
        = [EvBackPropagation net (forwarded g) (inr delta_arr);
           EvOptimize net rate c (fst op)] /\
      match fst op with
      | inl x =>
          fst (learn lib g s) = Raised x /\ epoch_counter (self after) = c
      | inr _ =>
          fst (learn lib g s) = Returned delta_arr /\
          epoch_counter (self after) = c + 1
      end
  end.
Proof.
  intros HN Hg. cbv zeta.
  rewrite (learn_batched lib g s HN Hg). unfold learn_result.
  destruct (decay_fields (self s)) as (-> & -> & _).
  destruct (back_propagation lib _ _ _) as [[x | d] w1]; cbn [fst snd].
  - split; [reflexivity | ]. apply added_app. reflexivity.
  - destruct (optimize lib _ _ _ _) as [[x | u] w2]; cbn [fst snd].
    + split; [ | split; [reflexivity | ] ].
      * apply added_app. cbn [env calls]. rewrite <- app_assoc. reflexivity.
      * cbn [self]. apply (decay_fields (self s)).
    + split; [ | split; [reflexivity | ] ].
      * apply added_app. cbn [env calls]. rewrite <- app_assoc. reflexivity.
      * cbn [self set_epoch_counter epoch_counter].
        reflexivity.
Qed.

(** *** Forwarding to the network *)

Lemma inference_batched (x : ndarray) (s : Obj World) :
  batched x = true ->
  inference lib x s =
    (match fst (nn_inference lib (nn (self s)) (forwarded x) (world (env s)))
     with
     | inr y => Returned y
     | inl e => Raised e
     end,
     {| self := self s;
        env :=
          {| world :=
               snd (nn_inference lib (nn (self s)) (forwarded x)
                      (world (env s)));
             calls :=
               calls (env s)
               ++ [EvInference (nn (self s)) (forwarded x)
                     (fst (nn_inference lib (nn (self s)) (forwarded x)
                             (world (env s))))] |} |}).
Proof.
  intros Hx. unfold inference, bind at 1.
  rewrite (to_2d_batched x s Hx).
  unfold call_inference. run_py.
  destruct (nn_inference lib _ _ _) as [[e | y] w]; reflexivity.
Qed.

Lemma inference_unbatched (x : ndarray) (s : Obj World) :
  batched x = false -> exists e, inference lib x s = (Raised e, s).
Proof.
  intros Hx. unfold inference, bind at 1.
  destruct (to_2d_other x s Hx) as [e ->]. exists e. reflexivity.
Qed.

Lemma forwarded_shape (x : ndarray) :
  batched x = true ->
  ndim (forwarded x) = 2%nat /\
  shape_at (forwarded x) 0 = shape_at x 0 /\
  data (forwarded x) = data x.
Proof.
  unfold batched, forwarded. intros H.
  destruct (ndim x =? 2)%nat eqn:E.
  - apply Nat.eqb_eq in E. repeat split. exact E.
  - cbn [orb] in H. unfold flattened, shape_at, ndim.
    destruct (shape x) as [ | d0 rest]; [discriminate | ].
    repeat split.
Qed.

(** C4, as the code has it.  An input with two dimensions reaches the
    network's [inference] as it is.  An input with another number of
    dimensions, at least one, and a first dimension that is not zero
    reaches it reshaped: two dimensions, the same first dimension, the
    same elements.  That call is the only one made, and its result is the
    result of [inference]. *)
Theorem inference_forwards_batch (x : ndarray) (s : Obj World) :
  batched x = true ->
  let r := nn_inference lib (nn (self s)) (forwarded x) (world (env s)) in
  added (env s) (env (snd (inference lib x s)))
    = [EvInference (nn (self s)) (forwarded x) (fst r)] /\
  fst (inference lib x s)
    = match fst r with inr y => Returned y | inl e => Raised e end /\
  (ndim x = 2%nat -> forwarded x = x) /\
  ndim (forwarded x) = 2%nat /\
  shape_at (forwarded x) 0 = shape_at x 0 /\
  data (forwarded x) = data x.
Proof.
  intros Hx. cbv zeta. rewrite (inference_batched x s Hx). cbn [fst snd].
  split; [apply added_app; reflexivity | ].
  split; [reflexivity | ].
  split; [ | apply forwarded_shape; exact Hx].
  intros E. unfold forwarded. apply Nat.eqb_eq in E. rewrite E. reflexivity.
Qed.

(** *** Drawing samples *)

Lemma inference_calls (x : ndarray) (s : Obj World) :
  exists l,
    calls (env (snd (inference lib x s))) = calls (env s) ++ l /\
    filter is_Generate l = [].
Proof.
  destruct (batched x) eqn:Hx.
  - rewrite (inference_batched x s Hx). cbn [snd env calls].
    eexists. split; reflexivity.
  - destruct (inference_unbatched x s Hx) as [e ->].
    exists []. rewrite app_nil_r. split; reflexivity.
Qed.

(** C5. With a noise sampler attached, [draw] is [inference] applied to
    the array returned by one call of the sampler's [generate]: same
    result, same final state, and exactly one [generate] among the calls
    made. *)
Theorem draw_is_inference_of_noise (n : ref) (s : Obj World) :
  noise_sampler (self s) = Some n ->
  draw lib s = inference_of_noise lib n s /\
  List.length (filter is_Generate (added (env s) (env (snd (draw lib s)))))
    = 1%nat /\
  (forall x w,
      generate lib n (world (env s)) = (inr x, w) ->
      draw lib s =
        inference lib x
          {| self := self s;
             env := {| world := w;
                       calls := calls (env s) ++ [EvGenerate n (inr x)] |} |}).
Proof.
  intros Hn.
  assert (E : draw lib s = inference_of_noise lib n s).
  { unfold draw, inference_of_noise, bind at 1, attr, gets.
    rewrite Hn. unfold bind.
    destruct (outside (call_generate lib n) s) as [[x | e] s1]; [ | reflexivity].
    destruct (inference lib x s1) as [[y | e] s2]; reflexivity. }
  split; [exact E | ].
  rewrite E. unfold inference_of_noise, call_generate, bind. run_py.
  destruct (generate lib n (world (env s))) as [[e | x] w] eqn:G.
  - split; [ | intros x w' [=] ].
    cbn [snd env]. erewrite added_app by reflexivity. reflexivity.
  - split; [ | intros x' w' [= <- <-]; reflexivity ].
    match goal with
    | |- context [inference lib x ?o] =>
        destruct (inference_calls x o) as (l & Hl & Hg)
    end.
    cbn [env calls] in Hl. rewrite <- app_assoc in Hl.
    rewrite (@added_app _ _ _ _ Hl). cbn [app filter is_Generate].
    rewrite Hg. reflexivity.
Qed.

(** *** Wrapping a network or building one *)

(** C6. Given a network, the constructor returns a model that holds this
    very object and calls [NeuralNetwork] not at all.  Given none, it
    calls [NeuralNetwork] exactly once, with the layer list, batch size,
    learning rate, attenuation parameters and pre-learned paths it
    received, [epochs = 200], and for loss, optimizer and verification
    the object it received or else a [MeanSquaredError], an [Adam], a
    [VerificateFunctionApproximation] it has just created; the model
    holds the network that call returned. *)
Theorem init_wraps_or_builds (a : InitArgs) (e : Env World) :
  let made := added e (snd (init lib a e)) in
  match arg_nn a with
  | Some n =>
      (exists m, fst (init lib a e) = Returned m /\ nn m = n) /\
      filter is_NeuralNetwork made = []
  | None =>
      exists loss opt verif res,
        filter is_NeuralNetwork made =
          [EvNeuralNetwork
             {| kw_nn_layer_list := arg_nn_layer_list a;
                kw_epochs := 200;
                kw_batch_size := arg_batch_size a;
                kw_learning_rate := arg_learning_rate a;
                kw_computable_loss := loss;
                kw_opt_params := opt;
                kw_verificatable_result := verif;
                kw_pre_learned_path_list := arg_pre_learned_path_list a;
                kw_learning_attenuate_rate := arg_learning_attenuate_rate a;
                kw_attenuate_epoch := arg_attenuate_epoch a |} res] /\
        match arg_computable_loss a with
        | Some l => loss = l
        | None => In (EvMeanSquaredError loss) made
        end /\
        match arg_opt_params a with
        | Some o => opt = o
        | None => In (EvAdam opt) made
        end /\
        match arg_verificatable_result a with
        | Some v => verif = v
        | None => In (EvVerificateFunctionApproximation verif) made
        end /\
        match res with
        | inr n => exists m, fst (init lib a e) = Returned m /\ nn m = n
        | inl x => fst (init lib a e) = Raised x
        end
  end.
Proof.
  cbv zeta.
  unfold init, new_MeanSquaredError, new_VerificateFunctionApproximation,
    new_Adam, write_weight_limit, write_dropout_rate, new_NeuralNetwork,
    call_getLogger.
  run_py.
  destruct (arg_computable_loss a); destruct (arg_verificatable_result a);
    destruct (arg_opt_params a); destruct (arg_nn a);
    repeat (cbn [world calls]; break_match);
    cbn [fst snd world calls]; unfold added; cbn [world calls];
    rewrite <- ?app_assoc; rewrite ?skipn_length_app;
    cbn [app filter is_NeuralNetwork];
    first
      [ split; [eexists; split; reflexivity | reflexivity]
      | do 4 eexists; split; [reflexivity | ];
        cbn [In]; repeat split; try reflexivity; eauto 10 ].
Qed.

End Behaviour.

(** ** The adapter on the small library *)

Lemma sim_init (n : Z) :
  init Sim.lib (Sim.args n) Sim.start = (Returned (Sim.model n), Sim.after_init n).
Proof. reflexivity. Qed.

Example sim_default_args : Sim.args 50 = default_args 2 [].
Proof. reflexivity. Qed.

(** In this library the flag written by [switch_inferencing_mode] can be
    read back from the optimizer of the wrapped network. *)
Example sim_mode_written (b : bool) :
  let w := world (env (snd (switch_inferencing_mode Sim.lib b (Sim.object 50)))) in
  Sim.lookup (get_opt_params Sim.lib (nn (Sim.model 50)) w) (Sim.mode_of w)
    = Some b.
Proof. reflexivity. Qed.

(** The calls of the session, as the library saw them. *)
Example sim_session_optimized :
  Sim.optimized (world (env (run Sim.lib Sim.session (Sim.object 2))))
    = [(1e-05%float, 0); ((1e-05 * 0.1 * 0.1)%float, 1)].
Proof. reflexivity. Qed.

(** C8 at work: the history is empty after the session of [Sim.session]. *)
Lemma loss_list_stays_empty_witness :
  init Sim.lib (Sim.args 2) Sim.start
    = (Returned (Sim.model 2), Sim.after_init 2) /\
  loss_list (self (run Sim.lib Sim.session (Sim.object 2))) = [].
Proof.
  split; [reflexivity | ].
  refine (proj2 (proj2 (@loss_list_stays_empty _ Sim.lib (Sim.args 2) Sim.start
                          (Sim.after_init 2) (Sim.model 2) Sim.session _))).
  reflexivity.
Defined.

(** C9 at work: the counter after the session is the number of calls of
    [learn] that returned. *)
Lemma epoch_counter_counts_learns_witness :
  init Sim.lib (Sim.args 2) Sim.start
    = (Returned (Sim.model 2), Sim.after_init 2) /\
  epoch_counter (self (run Sim.lib Sim.session (Sim.object 2)))
    = Z.of_nat (learned Sim.lib Sim.session (Sim.object 2)).
Proof.
  split; [reflexivity | ].
  refine (proj2 (proj2 (@epoch_counter_counts_learns _ Sim.lib (Sim.args 2)
                          Sim.start (Sim.after_init 2) (Sim.model 2)
                          Sim.session _))).
  reflexivity.
Defined.

(** C10 at work, on an object built with [attenuate_epoch = 0] and on one
    built with [attenuate_epoch = 2]. *)
Lemma attenuate_epoch_zero_or_positive_witness :
  (init Sim.lib (Sim.args 0) Sim.start
     = (Returned (Sim.model 0), Sim.after_init 0) /\
   arg_attenuate_epoch (Sim.args 0) = 0 /\
   learn Sim.lib Sim.grad (run Sim.lib Sim.session (Sim.object 0))
     = (Raised ZeroDivisionError, run Sim.lib Sim.session (Sim.object 0))) /\
  (init Sim.lib (Sim.args 2) Sim.start
     = (Returned (Sim.model 2), Sim.after_init 2) /\
   1 <= arg_attenuate_epoch (Sim.args 2) /\
   fst (attenuation_due (run Sim.lib Sim.session (Sim.object 2)))
     <> Raised ZeroDivisionError).
Proof.
  split; (split; [reflexivity | split]).
  - reflexivity.
  - refine (proj1 (@attenuate_epoch_zero_or_positive _ Sim.lib (Sim.args 0)
                     Sim.start (Sim.after_init 0) (Sim.model 0) Sim.session
                     Sim.grad _) _); reflexivity.
  - cbn. lia.
  - refine (proj2 (proj2 (@attenuate_epoch_zero_or_positive _ Sim.lib
                            (Sim.args 2) Sim.start (Sim.after_init 2)
                            (Sim.model 2) Sim.session Sim.grad _) _)).
    + reflexivity.
    + cbn. lia.
Defined.

(** C2 at work: three gradient steps with [attenuate_epoch = 2] leave the
    rate decayed once. *)
Lemma learning_rate_schedule_witness :
  init Sim.lib (Sim.args 2) Sim.start
    = (Returned (Sim.model 2), Sim.after_init 2) /\
  1 <= arg_attenuate_epoch (Sim.args 2) /\
  learns_return Sim.lib Sim.three_steps (Sim.object 2) = true /\
  learning_rate (self (run Sim.lib Sim.three_steps (Sim.object 2)))
    = attenuated 1e-05 0.1 (Z.to_nat (Z.of_nat 3 / 2)).
Proof.
  split; [reflexivity | ].
  split; [cbn; lia | ].
  split; [reflexivity | ].
  refine (proj2 (@learning_rate_schedule _ Sim.lib (Sim.args 2) Sim.start
                   (Sim.after_init 2) (Sim.model 2) Sim.three_steps _ _) _).
  - reflexivity.
  - cbn. lia.
  - reflexivity.
Defined.

(** The schedule does not survive a call of [learn] that raises: the rate
    has decayed before the gradient is looked at, the counter has not
    moved, and the next call decays again.  Three calls with
    [attenuate_epoch = 2] leave the rate decayed twice, not
    [floor (3 / 2) = 1] times. *)
Lemma schedule_broken_by_raising_learn :
  init Sim.lib (Sim.args 2) Sim.start
    = (Returned (Sim.model 2), Sim.after_init 2) /\
  1 <= arg_attenuate_epoch (Sim.args 2) /\
  learn_calls Sim.three_calls = 3%nat /\
  learning_rate (self (run Sim.lib Sim.three_calls (Sim.object 2)))
    = (1e-05 * 0.1 * 0.1)%float /\
  learning_rate (self (run Sim.lib Sim.three_calls (Sim.object 2)))
    <> attenuated 1e-05 0.1 (Z.to_nat (Z.of_nat 3 / 2)).
Proof.
  split; [reflexivity | ].
  split; [cbn; lia | ].
  split; [reflexivity | ].
  split; [reflexivity | ].
  intros H.
  assert (E : PrimFloat.ltb
                (learning_rate (self (run Sim.lib Sim.three_calls (Sim.object 2))))
                (attenuated 1e-05 0.1 (Z.to_nat (Z.of_nat 3 / 2))) = true)
    by (vm_compute; reflexivity).
  rewrite H in E. vm_compute in E. discriminate E.
Qed.

(** C3 at work: a gradient of shape (2, 1, 2) is back-propagated as a
    2 x 2 matrix, then optimize is called with the rate and counter of the
    fresh object, and the delta comes back. *)
Lemma learn_back_propagates_then_optimizes_witness :
  attenuate_epoch (self (Sim.object 2)) <> 0 /\
  batched Sim.noise = true /\
  added (env (Sim.object 2)) (env (snd (learn Sim.lib Sim.noise (Sim.object 2))))
    = [EvBackPropagation 4%positive (forwarded Sim.noise)
         (inr (forwarded Sim.noise));
       EvOptimize 4%positive 1e-05%float 0 (inr tt)] /\
  fst (learn Sim.lib Sim.noise (Sim.object 2)) = Returned (forwarded Sim.noise) /\
  epoch_counter (self (snd (learn Sim.lib Sim.noise (Sim.object 2)))) = 0 + 1.
Proof.
  split; [cbn; lia | ].
  split; [reflexivity | ].
  refine (@learn_back_propagates_then_optimizes _ Sim.lib Sim.noise
            (Sim.object 2) _ _).
  - cbn. lia.
  - reflexivity.
Defined.

(** With [attenuate_epoch = 0], [learn] raises before any call: no
    back-propagation, no optimize, no delta. *)
Lemma learn_raises_before_any_call :
  init Sim.lib (Sim.args 0) Sim.start
    = (Returned (Sim.model 0), Sim.after_init 0) /\
  learn Sim.lib Sim.grad (Sim.object 0)
    = (Raised ZeroDivisionError, Sim.object 0) /\
  added (env (Sim.object 0)) (env (snd (learn Sim.lib Sim.grad (Sim.object 0))))
    = [].
Proof. repeat split. Qed.

(** C4 at work: an input of shape (2, 1, 2) reaches the network with
    shape (2, 2). *)
Lemma inference_forwards_batch_witness :
  batched Sim.noise = true /\
  added (env (Sim.object 2))
        (env (snd (inference Sim.lib Sim.noise (Sim.object 2))))
    = [EvInference 4%positive
         {| shape := [2%N; 2%N]; data := data Sim.noise |}
         (inr {| shape := [2%N; 2%N]; data := data Sim.noise |})] /\
  shape_at (forwarded Sim.noise) 0 = shape_at Sim.noise 0.
Proof.
  split; [reflexivity | ].
  pose proof (@inference_forwards_batch _ Sim.lib Sim.noise (Sim.object 2)
                eq_refl) as H.
  split; [exact (proj1 H) | exact (proj1 (proj2 (proj2 (proj2 (proj2 H)))))].
Defined.

(** An array without dimensions has no first dimension: [inference]
    raises [IndexError] on [shape[0]] and nothing reaches the network. *)
Lemma inference_raises_without_dimensions :
  init Sim.lib (Sim.args 50) Sim.start
    = (Returned (Sim.model 50), Sim.after_init 50) /\
  ndim Sim.scalar = 0%nat /\
  inference Sim.lib Sim.scalar (Sim.object 50)
    = (Raised IndexError, Sim.object 50) /\
  added (env (Sim.object 50))
        (env (snd (inference Sim.lib Sim.scalar (Sim.object 50)))) = [].
Proof. repeat split. Qed.

(** C5 at work: after a sampler is attached, [draw] is [inference] of its
    noise. *)
Lemma draw_is_inference_of_noise_witness :
  let s := snd (set_noise_sampler 9%positive (Sim.object 2)) in
  noise_sampler (self s) = Some 9%positive /\
  draw Sim.lib s = inference_of_noise Sim.lib 9%positive s /\
  fst (draw Sim.lib s) = Returned (forwarded Sim.noise).
Proof.
  cbv zeta. split; [reflexivity | ].
  split; [ | reflexivity].
  refine (proj1 (@draw_is_inference_of_noise _ Sim.lib 9%positive
                   (snd (set_noise_sampler 9%positive (Sim.object 2))) _)).
  reflexivity.
Defined.

(** * Further properties of the class *)

Section Further.

Context {World : Type} (lib : Library World).

(** ** Inputs that cannot be reshaped *)

Lemma to_2d_unbatched (x : ndarray) (s : Obj World) :
  batched x = false -> to_2d x s = (Raised (unbatched_error x), s).
Proof.
  unfold batched, to_2d, unbatched_error. intros H.
  destruct (ndim x =? 2)%nat; [discriminate | ].
  cbn [orb negb] in H |- *.
  destruct (shape x) as [ | d0 rest] eqn:Hs.
  - unfold bind, lift, shape_at. rewrite Hs. reflexivity.
  - destruct (N.eqb_spec d0 0) as [E | E]; [ | discriminate ].
    subst d0. unfold bind, lift, shape_at. rewrite Hs. cbn [nth_error ret].
    rewrite (reshape_empty_batch x Hs). reflexivity.
Qed.

(** X1. [inference] and [draw] read the model and never write it: every
    attribute of the wrapper is the same afterwards, whether the call
    returned or raised. *)
Theorem inference_and_draw_keep_the_model (x : ndarray) (s : Obj World) :
  self (snd (inference lib x s)) = self s /\
  self (snd (draw lib s)) = self s.
Proof. split; [apply inference_self | apply draw_self]. Qed.

(** X2. On an input that has neither two dimensions nor a first dimension
    other than zero, [inference] raises -- [IndexError] when the array has
    no dimension at all, [ValueError] otherwise -- without calling the
    network and without changing anything. *)
Theorem inference_rejects_unbatched (x : ndarray) (s : Obj World) :
  batched x = false ->
  inference lib x s =
    (Raised (if (ndim x =? 0)%nat then IndexError else ValueError), s).
Proof.
  intros Hx. unfold inference, bind at 1.
  rewrite (to_2d_unbatched x s Hx). unfold unbatched_error, ndim.
  destruct (shape x); reflexivity.
Qed.

(** X3. On such a gradient [learn] raises before it calls the network, but
    after its decay test: nothing is called and the epoch counter stays,
    yet the learning rate has been multiplied by the factor if the test
    fired. *)
Theorem learn_rejects_unbatched_after_decay (g : ndarray) (s : Obj World) :
  attenuate_epoch (self s) <> 0 ->
  batched g = false ->
  learn lib g s =
    (Raised (if (ndim g =? 0)%nat then IndexError else ValueError),
     {| self := decay (self s); env := env s |}) /\
  epoch_counter (self (snd (learn lib g s))) = epoch_counter (self s) /\
  learning_rate (self (snd (learn lib g s))) =
    if (epoch_counter (self s) + 1) mod attenuate_epoch (self s) =? 0
    then (learning_rate (self s) * learning_attenuate_rate (self s))%float
    else learning_rate (self s).
Proof.
  intros HN Hg.
  assert (E : learn lib g s =
              (Raised (if (ndim g =? 0)%nat then IndexError else ValueError),
               {| self := decay (self s); env := env s |})).
  { rewrite (learn_decays lib g s HN). unfold bind at 1.
    rewrite (to_2d_unbatched g _ Hg). unfold unbatched_error, ndim.
    destruct (shape g); reflexivity. }
  rewrite E. cbn [snd self].
  split; [reflexivity | split].
  - apply (decay_fields (self s)).
  - apply decay_rate.
Qed.

(** ** Reshaping beforehand *)

Lemma forwarded_again (x : ndarray) :
  batched x = true ->
  batched (forwarded x) = true /\ forwarded (forwarded x) = forwarded x.
Proof.
  intros Hx. destruct (forwarded_shape x Hx) as (Hn & _).
  unfold batched. unfold forwarded at 2 3.
  apply Nat.eqb_eq in Hn. rewrite Hn. split; reflexivity.
Qed.

(** X4. An array the adapter can reshape may as well be reshaped by the
    caller: [inference] and [learn] do exactly the same on the array and
    on its two-dimensional form. *)
Theorem reshaping_beforehand_changes_nothing (x : ndarray) (s : Obj World) :
  batched x = true ->
  inference lib (forwarded x) s = inference lib x s /\
  learn lib (forwarded x) s = learn lib x s.
Proof.
  intros Hx. destruct (forwarded_again x Hx) as (Hb & Hf). split.
  - rewrite (inference_batched lib (forwarded x) s Hb),
      (inference_batched lib x s Hx), Hf. reflexivity.
  - destruct (Z.eq_dec (attenuate_epoch (self s)) 0) as [HZ | HN].
    + rewrite !(learn_zero lib _ s HZ). reflexivity.
    + rewrite (learn_batched lib (forwarded x) s HN Hb),
        (learn_batched lib x s HN Hx).
      unfold learn_result. rewrite Hf. reflexivity.
Qed.


(** ** The wrapped network *)

(** X6. The network an [NNModel] holds is the same for its whole life:
    after any sequence of operations, attempts to assign [nn] included,
    [get_nn] returns the network held at the start, and changes nothing. *)
Theorem get_nn_is_constant (os : list op) (s : Obj World) :
  get_nn (run lib os s) = (Returned (nn (self s)), run lib os s).
Proof.
  unfold get_nn, attr, gets.
  destruct (run_keeps lib os s) as (-> & _). reflexivity.
Qed.

(** ** The schedule when calls raise *)

Lemma attenuated_next_from (r0 a : float) (k w : nat) (n : Z) :
  1 <= n ->
  (if (Z.of_nat k + 1) mod n =? 0
   then (attenuated r0 a (Z.to_nat (Z.of_nat k / n) + w) * a)%float
   else attenuated r0 a (Z.to_nat (Z.of_nat k / n) + w))
  = attenuated r0 a (Z.to_nat (Z.of_nat (S k) / n) + w).
Proof.
  intros Hn. rewrite Nat2Z.inj_succ, <- Z.add_1_r.
  assert (Hq : 0 <= Z.of_nat k / n) by (apply Z.div_pos; lia).
  destruct (Z.eqb_spec ((Z.of_nat k + 1) mod n) 0) as [E | E].
  - rewrite div_succ_multiple by lia.
    rewrite Z.add_1_r, Z2Nat.inj_succ by exact Hq.
    reflexivity.
  - rewrite div_succ_other by lia.
    reflexivity.
Qed.

Lemma run_schedule_with_waste (r0 a : float) (n : Z) (os : list op) :
  1 <= n ->
  forall (s : Obj World) (k w : nat),
    attenuate_epoch (self s) = n ->
    learning_attenuate_rate (self s) = a ->
    epoch_counter (self s) = Z.of_nat k ->
    learning_rate (self s)
      = attenuated r0 a (Z.to_nat (Z.of_nat k / n) + w) ->
    learning_rate (self (run lib os s)) =
      attenuated r0 a
        (Z.to_nat (Z.of_nat (k + learned lib os s) / n)
         + (w + wasted_decays lib os s)).
Proof.
  intros Hn. induction os as [ | o os IH]; intros s k w HN Ha Hc Hr.
  - cbn [run learned wasted_decays]. rewrite !Nat.add_0_r. exact Hr.
  - cbn [run learned wasted_decays].
    destruct (step_keeps lib o s) as (_ & HN' & Ha' & _).
    pose proof (step_self lib o s ltac:(lia)) as Hs.
    destruct (decay_fields (self s)) as (_ & Hdc & _).
    rewrite HN, Hc.
    destruct (is_learn o) eqn:Hl; cbn [andb].
    + destruct o; try discriminate Hl.
      destruct (fst (step lib (Learn g) s)) eqn:Ho; cbn [negb andb].
      * (* returned: the counter moves, the decay counts *)
        replace (k + (1 + learned lib os (snd (step lib (Learn g) s))))%nat
          with (S k + learned lib os (snd (step lib (Learn g) s)))%nat by lia.
        rewrite Nat.add_0_l.
        apply IH; try congruence.
        -- rewrite Hs. cbn [set_epoch_counter epoch_counter]. lia.
        -- rewrite Hs. cbn [set_epoch_counter learning_rate].
           rewrite decay_rate, HN, Ha, Hc, Hr.
           apply attenuated_next_from. exact Hn.
      * (* raised: the counter stays, a decay that fired is extra *)
        rewrite Nat.add_0_l.
        destruct ((Z.of_nat k + 1) mod n =? 0) eqn:Hd.
        -- replace (w + (1 + wasted_decays lib os (snd (step lib (Learn g) s))))%nat
             with (S w + wasted_decays lib os (snd (step lib (Learn g) s)))%nat
             by lia.
           apply IH; try congruence.
           rewrite Hs, decay_rate, HN, Ha, Hc, Hd, Hr.
           rewrite (Nat.add_succ_r _ w). reflexivity.
        -- rewrite Nat.add_0_l.
           apply IH; try congruence.
           rewrite Hs, decay_rate, HN, Ha, Hc, Hd. exact Hr.
    + rewrite !Nat.add_0_l.
      apply IH; try congruence.
      * rewrite Hs. destruct o; try discriminate Hl; exact Hc.
      * rewrite Hs. destruct o; try discriminate Hl; exact Hr.
Qed.

(** X7. The learning rate after any sequence of operations, whether the
    calls of [learn] returned or raised: with [attenuate_epoch = N >= 1]
    it is the initial rate multiplied by the factor once for every [N]
    calls of [learn] that returned, and once more for every call of
    [learn] that raised after its decay test had fired. *)
Theorem learning_rate_after_any_run
  (a : InitArgs) (e e' : Env World) (m : NNModel) (os : list op) :
  init lib a e = (Returned m, e') ->
  1 <= arg_attenuate_epoch a ->
  learning_rate (self (run lib os {| self := m; env := e' |})) =
    attenuated (arg_learning_rate a) (arg_learning_attenuate_rate a)
      (Z.to_nat (Z.of_nat (learned lib os {| self := m; env := e' |})
                 / arg_attenuate_epoch a)
       + wasted_decays lib os {| self := m; env := e' |}).
Proof.
  intros Hinit Hn.
  destruct (init_fields lib a e Hinit) as (_ & Hr & Ha & HN & Hc & _).
  change (learned lib os {| self := m; env := e' |})
    with (0 + learned lib os {| self := m; env := e' |})%nat.
  change (wasted_decays lib os {| self := m; env := e' |})
    with (0 + wasted_decays lib os {| self := m; env := e' |})%nat at 1.
  apply run_schedule_with_waste; cbn [self]; assumption.
Qed.

(** X8. For any [attenuate_epoch] other than zero, negative ones included,
    the decay test of [learn] fires exactly when [attenuate_epoch] divides
    the epoch counter plus one; [learn] then multiplies the learning rate
    by the factor, and otherwise leaves it alone. *)
Theorem learn_decays_on_multiples (g : ndarray) (s : Obj World) :
  attenuate_epoch (self s) <> 0 ->
  ((attenuate_epoch (self s) | epoch_counter (self s) + 1) ->
   learning_rate (self (snd (learn lib g s)))
     = (learning_rate (self s) * learning_attenuate_rate (self s))%float) /\
  (~ (attenuate_epoch (self s) | epoch_counter (self s) + 1) ->
   learning_rate (self (snd (learn lib g s))) = learning_rate (self s)).
Proof.
  intros HN. rewrite (learn_rate lib g s HN), decay_rate.
  pose proof (Z.mod_divide (epoch_counter (self s) + 1)
                (attenuate_epoch (self s)) HN) as D.
  destruct (Z.eqb_spec ((epoch_counter (self s) + 1)
                          mod attenuate_epoch (self s)) 0) as [E | E].
  - split; [reflexivity | ]. intros H. elim H. apply D. exact E.
  - split; [ | reflexivity]. intros H. elim E. apply D. exact H.
Qed.

(** ** What the library sees of training *)

Lemma inference_log (x : ndarray) (s : Obj World) :
  exists l,
    calls (env (snd (inference lib x s))) = calls (env s) ++ l /\
    filter is_training l = [] /\ optimize_epochs l = [].
Proof.
  destruct (batched x) eqn:Hx.
  - rewrite (inference_batched lib x s Hx). cbn [snd env calls].
    eexists. repeat split.
  - destruct (inference_unbatched lib x s Hx) as [e ->].
    exists []. rewrite app_nil_r. repeat split.
Qed.

Lemma draw_log (s : Obj World) :
  exists l,
    calls (env (snd (draw lib s))) = calls (env s) ++ l /\
    filter is_training l = [] /\ optimize_epochs l = [].
Proof.
  unfold draw, bind at 1, attr, gets.
  destruct (noise_sampler (self s)) as [n | ].
  - unfold bind at 1, outside, call_generate, fallible.
    destruct (generate lib n (world (env s))) as [[e | x] w];
      cbn [self env world calls].
    + eexists. repeat split.
    + unfold bind.
      match goal with
      | |- context [inference lib x ?o] =>
          destruct (inference_log x o) as (l & Hl & Ht & Ho);
          destruct (inference lib x o) as [[y | e] s']
      end;
        unfold ret; cbn [snd] in Hl |- *; rewrite Hl; cbn [env calls];
        rewrite <- app_assoc;
        eexists; (split; [reflexivity | ]);
        cbn [app filter is_training optimize_epochs flat_map];
        split; assumption.
  - exists []. cbn. rewrite app_nil_r. repeat split.
Qed.

Lemma learn_log (g : ndarray) (s : Obj World) :
  exists l,
    calls (env (snd (learn lib g s))) = calls (env s) ++ l /\
    optimize_epochs l =
      (if returned (fst (learn lib g s)) then [epoch_counter (self s)] else []) /\
    (attenuate_epoch (self s) = 0 -> l = []).
Proof.
  destruct (Z.eq_dec (attenuate_epoch (self s)) 0) as [HZ | HN].
  - rewrite (learn_zero lib g s HZ). exists []. rewrite app_nil_r.
    repeat split.
  - destruct (batched g) eqn:Hg.
    + rewrite (learn_batched lib g s HN Hg). unfold learn_result.
      destruct (decay_fields (self s)) as (_ & Hc & _).
      destruct (back_propagation lib _ _ _) as [[x | d] w1].
      * eexists. split; [reflexivity | ]. split; [reflexivity | contradiction].
      * destruct (optimize lib _ _ _ _) as [[x | u] w2];
          cbn [snd fst env calls returned]; rewrite <- app_assoc;
          eexists; (split; [reflexivity | ]);
          (split; [ | contradiction]); cbn; rewrite ?Hc; reflexivity.
    + destruct (learn_unbatched lib g s HN Hg) as [e ->].
      exists []. cbn [snd env]. rewrite app_nil_r.
      split; [reflexivity | ]. split; [reflexivity | contradiction].
Qed.

Lemma step_log (o : op) (s : Obj World) :
  exists l,
    calls (env (snd (step lib o s))) = calls (env s) ++ l /\
    optimize_epochs l =
      (if is_learn o && fst (step lib o s)
       then [epoch_counter (self s)] else []) /\
    (attenuate_epoch (self s) = 0 -> filter is_training l = []).
Proof.
  destruct o as [ | x | g | b | | v | n]; cbn [step is_learn andb].
  - destruct (draw_log s) as (l & Hl & Ht & Ho).
    destruct (draw lib s); exists l; auto.
  - destruct (inference_log x s) as (l & Hl & Ht & Ho).
    destruct (inference lib x s); exists l; auto.
  - destruct (learn_log g s) as (l & Hl & Ho & Hz).
    destruct (learn lib g s) as [r s']; exists l; cbn [fst snd] in *.
    split; [exact Hl | ]. split; [exact Ho | ].
    intros HZ. rewrite (Hz HZ). reflexivity.
  - eexists. split.
    + unfold switch_inferencing_mode, read_opt_params, write_inferencing_mode.
      run_py. rewrite <- app_assoc. reflexivity.
    + split; [ | intros _]; reflexivity.
  - exists []. cbn. rewrite app_nil_r. repeat split.
  - exists []. cbn. rewrite app_nil_r. repeat split.
  - exists []. cbn. rewrite app_nil_r. repeat split.
Qed.

Lemma shifted_epochs (c : Z) (n : nat) :
  c :: map (fun i => c + 1 + Z.of_nat i) (seq 0 n)
  = map (fun i => c + Z.of_nat i) (seq 0 (S n)).
Proof.
  cbn [seq map]. rewrite Z.add_0_r. f_equal.
  rewrite <- seq_shift, map_map. apply map_ext. intros i. lia.
Qed.

Lemma run_log (os : list op) (s : Obj World) :
  exists l,
    calls (env (run lib os s)) = calls (env s) ++ l /\
    optimize_epochs l =
      map (fun i => epoch_counter (self s) + Z.of_nat i)
          (seq 0 (learned lib os s)) /\
    (attenuate_epoch (self s) = 0 -> filter is_training l = []).
Proof.
  revert s. induction os as [ | o os IH]; intros s; cbn [run learned].
  - exists []. rewrite app_nil_r. repeat split.
  - destruct (step_log o s) as (l1 & Hl1 & Ho1 & Hz1).
    destruct (IH (snd (step lib o s))) as (l2 & Hl2 & Ho2 & Hz2).
    destruct (step_keeps lib o s) as (_ & HN & _).
    exists (l1 ++ l2). split; [ | split].
    + rewrite Hl2, Hl1, app_assoc. reflexivity.
    + unfold optimize_epochs in *. rewrite flat_map_app, Ho1, Ho2.
      rewrite step_counter.
      destruct (is_learn o && fst (step lib o s)); cbn [app Nat.add].
      * apply shifted_epochs.
      * rewrite Z.add_0_r. reflexivity.
    + intros HZ. rewrite filter_app, (Hz1 HZ), Hz2 by congruence.
      reflexivity.
Qed.

(** X9. The optimizer is told the epochs [0, 1, 2, ...] in order, without
    gap or repetition: the calls of optimize that returned since
    construction carry exactly the epochs from 0 up to the number of calls
    of [learn] that returned, whatever else was called and whichever calls
    raised. *)
Theorem optimize_sees_consecutive_epochs
  (a : InitArgs) (e e' : Env World) (m : NNModel) (os : list op) :
  init lib a e = (Returned m, e') ->
  optimize_epochs (added e' (env (run lib os {| self := m; env := e' |})))
    = map Z.of_nat (seq 0 (learned lib os {| self := m; env := e' |})).
Proof.
  intros Hinit.
  destruct (init_fields lib a e Hinit) as (_ & _ & _ & _ & Hc & _).
  destruct (run_log os {| self := m; env := e' |}) as (l & Hl & Ho & _).
  cbn [self env] in Hl, Ho.
  rewrite (@added_app _ _ _ _ Hl), Ho, Hc. reflexivity.
Qed.

(** X10. An object built with [attenuate_epoch = 0] never trains: along
    any sequence of operations no call of [learn] returns, neither
    back-propagation nor optimize is ever called, and the learning rate
    and the epoch counter keep their initial values. *)
Theorem zero_attenuate_epoch_never_trains
  (a : InitArgs) (e e' : Env World) (m : NNModel) (os : list op) :
  init lib a e = (Returned m, e') ->
  arg_attenuate_epoch a = 0 ->
  learned lib os {| self := m; env := e' |} = 0%nat /\
  filter is_training (added e' (env (run lib os {| self := m; env := e' |})))
    = [] /\
  learning_rate (self (run lib os {| self := m; env := e' |}))
    = arg_learning_rate a /\
  epoch_counter (self (run lib os {| self := m; env := e' |})) = 0.
Proof.
  intros Hinit HZ.
  destruct (init_fields lib a e Hinit) as (_ & Hr & _ & HN & Hc & _).
  assert (H0 : attenuate_epoch (self {| self := m; env := e' |}) = 0)
    by (cbn [self]; congruence).
  assert (G : forall (s : Obj World),
             attenuate_epoch (self s) = 0 ->
             learned lib os s = 0%nat /\
             learning_rate (self (run lib os s)) = learning_rate (self s)).
  { induction os as [ | o os IH]; intros s Hs; cbn [run learned].
    - split; reflexivity.
    - destruct (step_self_zero lib o s Hs) as (Hf & Hself).
      destruct (step_keeps lib o s) as (_ & HN' & _).
      destruct (IH (snd (step lib o s)) ltac:(congruence)) as (-> & ->).
      rewrite andb_comm, Hf, Hself. split; [reflexivity | ].
      destruct o; reflexivity. }
  destruct (G _ H0) as (Hl & Hrate).
  destruct (run_log os {| self := m; env := e' |}) as (l & Hcalls & _ & Hz).
  cbn [self env] in Hcalls.
  repeat split.
  - exact Hl.
  - rewrite (@added_app _ _ _ _ Hcalls). apply Hz. exact H0.
  - rewrite Hrate. exact Hr.
  - rewrite run_counter, Hl. cbn [self]. rewrite Hc. reflexivity.
Qed.

(** ** The default optimizer *)

(** X11. The constructor touches an optimizer only if it created it: given
    [opt_params], it neither creates an [Adam] nor writes [weight_limit]
    or [dropout_rate]; given none, it creates one [Adam] and sets on that
    object [weight_limit = 1e+10], then [dropout_rate = 0.0], and nothing
    else of the kind. *)
Theorem init_configures_only_its_own_optimizer
  (a : InitArgs) (e : Env World) :
  let made := added e (snd (init lib a e)) in
  match arg_opt_params a with
  | Some _ => filter is_optimizer_setup made = []
  | None =>
      exists o,
        filter is_optimizer_setup made =
          [EvAdam o; EvSetWeightLimit o 1e+10%float;
           EvSetDropoutRate o 0.0%float]
  end.
Proof.
  cbv zeta.
  unfold init, new_MeanSquaredError, new_VerificateFunctionApproximation,
    new_Adam, write_weight_limit, write_dropout_rate, new_NeuralNetwork,
    call_getLogger.
  run_py.
  destruct (arg_computable_loss a); destruct (arg_verificatable_result a);
    destruct (arg_opt_params a); destruct (arg_nn a);
    repeat (cbn [world calls]; break_match);
    cbn [fst snd world calls]; unfold added; cbn [world calls];
    rewrite <- ?app_assoc; rewrite ?skipn_length_app;
    cbn [app filter is_optimizer_setup];
    first [ reflexivity | eexists; reflexivity ].
Qed.

(** X12. The constructor creates a default loss and a default
    verification object exactly for the arguments it did not receive --
    also when it is handed a network and has no use for them -- and the
    loss the model keeps is the one received or the one created. *)
Theorem init_creates_defaults_for_missing_arguments
  (a : InitArgs) (e : Env World) :
  let made := added e (snd (init lib a e)) in
  match arg_computable_loss a with
  | Some l =>
      filter is_default_loss made = [] /\
      forall m, fst (init lib a e) = Returned m -> computable_loss m = l
  | None =>
      exists l,
        filter is_default_loss made = [EvMeanSquaredError l] /\
        forall m, fst (init lib a e) = Returned m -> computable_loss m = l
  end /\
  match arg_verificatable_result a with
  | Some _ => filter is_default_verification made = []
  | None =>
      exists v,
        filter is_default_verification made
          = [EvVerificateFunctionApproximation v]
  end.
Proof.
  cbv zeta.
  unfold init, new_MeanSquaredError, new_VerificateFunctionApproximation,
    new_Adam, write_weight_limit, write_dropout_rate, new_NeuralNetwork,
    call_getLogger.
  run_py.
  destruct (arg_computable_loss a); destruct (arg_verificatable_result a);
    destruct (arg_opt_params a); destruct (arg_nn a);
    repeat (cbn [world calls]; break_match);
    cbn [fst snd world calls]; unfold added; cbn [world calls];
    rewrite <- ?app_assoc; rewrite ?skipn_length_app;
    cbn [app filter is_default_loss is_default_verification];
    (split;
     [ first [ split; [reflexivity | ]
             | eexists; split; [reflexivity | ] ];
       intros m' H; inversion H; reflexivity
     | first [ reflexivity | eexists; reflexivity ] ]).
Qed.

End Further.

(** ** The further properties on the small library *)

(** X2 at work: a batch without samples and three dimensions is refused
    with [ValueError]. *)
Lemma inference_rejects_unbatched_witness :
  batched Sim.empty_batch = false /\
  inference Sim.lib Sim.empty_batch (Sim.object 2)
    = (Raised ValueError, Sim.object 2).
Proof.
  split; [reflexivity | ].
  refine (@inference_rejects_unbatched _ Sim.lib Sim.empty_batch
            (Sim.object 2) _).
  reflexivity.
Defined.

(** X3 at work: with [attenuate_epoch = 1] the first call of [learn]
    decays; on an array without dimensions it then raises, and the decay
    stays. *)
Lemma learn_rejects_unbatched_after_decay_witness :
  attenuate_epoch (self (Sim.object 1)) <> 0 /\
  batched Sim.scalar = false /\
  fst (learn Sim.lib Sim.scalar (Sim.object 1)) = Raised IndexError /\
  epoch_counter (self (snd (learn Sim.lib Sim.scalar (Sim.object 1)))) = 0 /\
  learning_rate (self (snd (learn Sim.lib Sim.scalar (Sim.object 1))))
    = (1e-05 * 0.1)%float.
Proof.
  split; [cbn; lia | ].
  split; [reflexivity | ].
  pose proof (@learn_rejects_unbatched_after_decay _ Sim.lib Sim.scalar
                (Sim.object 1) ltac:(cbn; lia) eq_refl) as (H1 & H2 & H3).
  split; [rewrite H1; reflexivity | ].
  split; [exact H2 | exact H3].
Defined.

(** X4 at work on the noise of shape (2, 1, 2). *)
Lemma reshaping_beforehand_changes_nothing_witness :
  batched Sim.noise = true /\
  inference Sim.lib (forwarded Sim.noise) (Sim.object 2)
    = inference Sim.lib Sim.noise (Sim.object 2) /\
  learn Sim.lib (forwarded Sim.noise) (Sim.object 2)
    = learn Sim.lib Sim.noise (Sim.object 2).
Proof.
  split; [reflexivity | ].
  refine (@reshaping_beforehand_changes_nothing _ Sim.lib Sim.noise
            (Sim.object 2) _).
  reflexivity.
Defined.


(** X7 at work: of three calls of [learn] two returned and one raised
    after its decay; with [attenuate_epoch = 2] that makes two decays. *)
Lemma learning_rate_after_any_run_witness :
  init Sim.lib (Sim.args 2) Sim.start
    = (Returned (Sim.model 2), Sim.after_init 2) /\
  1 <= arg_attenuate_epoch (Sim.args 2) /\
  learned Sim.lib Sim.three_calls (Sim.object 2) = 2%nat /\
  wasted_decays Sim.lib Sim.three_calls (Sim.object 2) = 1%nat /\
  learning_rate (self (run Sim.lib Sim.three_calls (Sim.object 2)))
    = attenuated 1e-05 0.1 (Z.to_nat (Z.of_nat 2 / 2) + 1).
Proof.
  split; [reflexivity | ].
  split; [cbn; lia | ].
  split; [reflexivity | ].
  split; [reflexivity | ].
  refine (@learning_rate_after_any_run _ Sim.lib (Sim.args 2) Sim.start
            (Sim.after_init 2) (Sim.model 2) Sim.three_calls _ _).
  - reflexivity.
  - cbn. lia.
Defined.

(** X8 at work: [attenuate_epoch = -1] divides every number, so the very
    first call of [learn] decays. *)
Lemma learn_decays_on_multiples_witness :
  attenuate_epoch (self (Sim.object (-1))) <> 0 /\
  (attenuate_epoch (self (Sim.object (-1)))
   | epoch_counter (self (Sim.object (-1))) + 1) /\
  learning_rate (self (snd (learn Sim.lib Sim.grad (Sim.object (-1)))))
    = (1e-05 * 0.1)%float.
Proof.
  assert (D : (attenuate_epoch (self (Sim.object (-1)))
               | epoch_counter (self (Sim.object (-1))) + 1))
    by (exists (-1); reflexivity).
  split; [cbn; lia | ].
  split; [exact D | ].
  refine (proj1 (@learn_decays_on_multiples _ Sim.lib Sim.grad
                   (Sim.object (-1)) _) D).
  cbn. lia.
Defined.

(** X9 at work: the two gradient steps of the session that went through
    were optimized as epochs 0 and 1. *)
Lemma optimize_sees_consecutive_epochs_witness :
  init Sim.lib (Sim.args 2) Sim.start
    = (Returned (Sim.model 2), Sim.after_init 2) /\
  optimize_epochs
    (added (Sim.after_init 2) (env (run Sim.lib Sim.session (Sim.object 2))))
    = [0; 1].
Proof.
  split; [reflexivity | ].
  refine (@optimize_sees_consecutive_epochs _ Sim.lib (Sim.args 2) Sim.start
            (Sim.after_init 2) (Sim.model 2) Sim.session _).
  reflexivity.
Defined.

(** X10 at work on the session, for an object built with
    [attenuate_epoch = 0]. *)
Lemma zero_attenuate_epoch_never_trains_witness :
  init Sim.lib (Sim.args 0) Sim.start
    = (Returned (Sim.model 0), Sim.after_init 0) /\
  arg_attenuate_epoch (Sim.args 0) = 0 /\
  learned Sim.lib Sim.session (Sim.object 0) = 0%nat /\
  filter is_training
    (added (Sim.after_init 0) (env (run Sim.lib Sim.session (Sim.object 0))))
    = [] /\
  learning_rate (self (run Sim.lib Sim.session (Sim.object 0)))
    = 1e-05%float /\
  epoch_counter (self (run Sim.lib Sim.session (Sim.object 0))) = 0.
Proof.
  split; [reflexivity | ].
  split; [reflexivity | ].
  refine (@zero_attenuate_epoch_never_trains _ Sim.lib (Sim.args 0) Sim.start
            (Sim.after_init 0) (Sim.model 0) Sim.session _ _);
    reflexivity.
Defined.
